(** * A shallow embedding of the [custom_orm] package (orm/fields.py,
    orm/models.py, orm/query.py) and the properties of its spec. *)

From stdpp Require Import base gmap strings list pretty.
From Stdlib Require Import ZArith.

Local Open Scope Z_scope.

(* ------------------------------------------------------------------ *)
(** ** Python values *)

(** The values a field can be assigned.  [VBool] is Python's [bool], a
    subclass of [int]; floats and datetimes are kept as opaque payloads
    (the code only tests their type).  [VOther] is any other object. *)
Inductive Value : Type :=
| VNone
| VBool (b : bool)
| VInt (z : Z)
| VFloat (x : Z)
| VStr (s : string)
| VDateTime (t : Z)
| VOther.

#[global] Instance Value_eq_dec : EqDecision Value.
Proof. solve_decision. Defined.

(** [isinstance(v, int)]: true for ints and bools. *)
Definition isinstance_int (v : Value) : bool :=
  match v with VInt _ | VBool _ => true | _ => false end.

(** The integer value of an int or bool ([True == 1], [False == 0]). *)
Definition int_value (v : Value) : Z :=
  match v with VInt z => z | VBool true => 1 | _ => 0 end.

(** [bool(v)] for an int or bool. *)
Definition to_bool (v : Value) : bool :=
  match v with VBool b => b | VInt z => negb (z =? 0) | _ => true end.

Definition is_none (v : Value) : bool :=
  match v with VNone => true | _ => false end.

(* ------------------------------------------------------------------ *)
(** ** Exceptions *)

Inductive ValueReason : Type :=
| CannotBeNone (attr : string)
| MustBeInteger (attr : string)
| MustBeString (attr : string)
| CannotExceed (attr : string) (max_length : nat)
| MustBeBooleanOrInteger (attr : string)
| MustBe01TrueFalse (attr : string)
| MustBeDatetime (attr : string)
| MustBeNumber (attr : string)
| HasNoPrimaryKey (model : string)
| HasNoFieldNamed (model : string) (field : string).

Inductive Exn : Type :=
| ValueError (r : ValueReason)
| TypeError (unexpected : list string)
| Dangling (r : nat).

(* ------------------------------------------------------------------ *)
(** ** fields.py *)

(** The field classes; the class-specific constructor arguments are kept
    with the kind. *)
Inductive FieldKind : Type :=
| IntegerField
| StringField (max_length : nat)
| BooleanField
| DateTimeField (auto_now auto_now_add : bool)
| FloatField.

(** A [Field] descriptor after [__set_name__]: [name] is the column name,
    [attr_name] the class attribute it is bound to ([_attr_name]).  The
    Python attribute [default] is [default_value] here ([default] is a
    notation of stdpp). *)
Record Field : Type := mkField {
  name : string;
  attr_name : string;
  primary_key : bool;
  nullable : bool;
  default_value : Value;
  kind : FieldKind
}.

(** [validate] of each field class. *)
Definition validate (f : Field) (v : Value) : Exn + unit :=
  let a := attr_name f in
  match kind f with
  | IntegerField =>
      if negb (is_none v) && negb (isinstance_int v)
      then inl (ValueError (MustBeInteger a)) else inr tt
  | StringField ml =>
      match v with
      | VNone => inr tt
      | VStr s => if Nat.ltb ml (String.length s)
                  then inl (ValueError (CannotExceed a ml)) else inr tt
      | _ => inl (ValueError (MustBeString a))
      end
  | BooleanField =>
      if is_none v then inr tt
      else if negb (isinstance_int v) then inl (ValueError (MustBeBooleanOrInteger a))
      else if isinstance_int v && negb (bool_decide (int_value v ∈ [0; 1]))
      then inl (ValueError (MustBe01TrueFalse a))
      else inr tt
  | DateTimeField _ _ =>
      match v with
      | VNone | VDateTime _ => inr tt
      | _ => inl (ValueError (MustBeDatetime a))
      end
  | FloatField =>
      match v with
      | VNone | VInt _ | VBool _ | VFloat _ => inr tt
      | _ => inl (ValueError (MustBeNumber a))
      end
  end.

(** The value [__set__] stores: [BooleanField.__set__] converts an int
    (or bool) with [bool(value)]; the other classes store it as given. *)
Definition stored_value (f : Field) (v : Value) : Value :=
  match kind f with
  | BooleanField => if isinstance_int v then VBool (to_bool v) else v
  | _ => v
  end.

(** The instance [__dict__]. *)
Abbreviation Dict := (gmap string Value).

(** [Field.__set__] and [BooleanField.__set__]. *)
Definition field_set (f : Field) (v : Value) (d : Dict) : Exn + Dict :=
  if negb (nullable f) && is_none v
  then inl (ValueError (CannotBeNone (attr_name f)))
  else match validate f v with
       | inl e => inl e
       | inr _ => inr (<[attr_name f := stored_value f v]> d)
       end.

(** [Field.__get__] on an instance. *)
Definition field_get (f : Field) (d : Dict) : Value :=
  match d !! attr_name f with Some v => v | None => default_value f end.

(* ------------------------------------------------------------------ *)
(** ** models.py: classes and [model_fields] *)

(** An ordered Python dict as an association list. *)
Fixpoint assoc_lookup {A} (k : string) (l : list (string * A)) : option A :=
  match l with
  | [] => None
  | (k', x) :: l' => if String.eqb k k' then Some x else assoc_lookup k l'
  end.

(** [d[k] = x]: replace in place, or append a new key. *)
Fixpoint dict_set {A} (k : string) (x : A) (l : list (string * A)) : list (string * A) :=
  match l with
  | [] => [(k, x)]
  | (k', y) :: l' => if String.eqb k k' then (k, x) :: l' else (k', y) :: dict_set k x l'
  end.

(** A model class after [model_fields]: [__table__], [__fields__]
    (attribute name to field, in declaration order), [__primary_key__]. *)
Record Model : Type := mkModel {
  model_name : string;
  m_table : string;
  m_fields : list (string * Field);
  m_primary_key : option Field
}.

(** A field as written in a class body, [XField(name=..., primary_key=...,
    nullable=..., default=..., ...)], before [__set_name__]. *)
Record FieldDecl : Type := mkFieldDecl {
  fd_name : option string;
  fd_primary_key : bool;
  fd_nullable : bool;
  fd_default : Value;
  fd_kind : FieldKind
}.

(** [Field.__set_name__(owner, a)], run when the class is created. *)
Definition set_name (a : string) (fd : FieldDecl) : Field :=
  mkField (match fd_name fd with Some n => n | None => a end) a
          (fd_primary_key fd) (fd_nullable fd) (fd_default fd) (fd_kind fd).

(** An attribute of a class body, as found in [cls.__dict__]. *)
Inductive ClassAttr : Type :=
| AttrField (fd : FieldDecl)
| AttrOther.

(** A class statement: its name, its [__dict__] in order, and the
    [__table__] it has ([hasattr(cls, '__table__')]), if any. *)
Record ClassDecl : Type := mkClassDecl {
  cls_name : string;
  cls_dict : list (string * ClassAttr);
  cls_table : option string
}.

Definition ascii_lower (c : Ascii.ascii) : Ascii.ascii :=
  let n := Ascii.nat_of_ascii c in
  if Nat.leb 65 n && Nat.leb n 90 then Ascii.ascii_of_nat (n + 32) else c.

(** [str.lower] on ASCII text. *)
Fixpoint lower (s : string) : string :=
  match s with
  | EmptyString => EmptyString
  | String c s' => String (ascii_lower c) (lower s')
  end.

(** The loop of [model_fields] over [cls.__dict__.items()]. *)
Fixpoint collect_fields (attrs : list (string * ClassAttr))
    (fields : list (string * Field)) (pk : option Field)
    : list (string * Field) * option Field :=
  match attrs with
  | [] => (fields, pk)
  | (a, AttrField fd) :: rest =>
      let f := set_name a fd in
      collect_fields rest (dict_set a f fields) (if primary_key f then Some f else pk)
  | (_, AttrOther) :: rest => collect_fields rest fields pk
  end.

(** The [model_fields] decorator. *)
Definition model_fields (c : ClassDecl) : Model :=
  let '(fields, pk) := collect_fields (cls_dict c) [] None in
  {| model_name := cls_name c;
     m_table := match cls_table c with
                | Some t => t
                | None => lower (cls_name c) +:+ "s"
                end;
     m_fields := fields;
     m_primary_key := pk |}.

(* ------------------------------------------------------------------ *)
(** ** models.py: instances and [Model.__init__] *)

Record Instance : Type := mkInstance {
  inst_model : Model;
  inst_dict : Dict
}.

(** [kwargs.pop(k, dflt)] on the keyword arguments (a dict, so its keys
    are distinct). *)
Fixpoint kw_remove (k : string) (kw : list (string * Value)) : list (string * Value) :=
  match kw with
  | [] => []
  | (k', v) :: kw' => if String.eqb k k' then kw' else (k', v) :: kw_remove k kw'
  end.

Definition kw_pop (k : string) (dflt : Value) (kw : list (string * Value))
    : Value * list (string * Value) :=
  match assoc_lookup k kw with
  | Some v => (v, kw_remove k kw)
  | None => (dflt, kw)
  end.

(** The loop of [__init__]:
    [setattr(self, field_name, kwargs.pop(field_name, field.default))];
    the attribute [field_name] is the descriptor [field]. *)
Fixpoint init_fields (fs : list (string * Field)) (kw : list (string * Value)) (d : Dict)
    : Exn + (Dict * list (string * Value)) :=
  match fs with
  | [] => inr (d, kw)
  | (k, f) :: fs' =>
      let '(v, kw') := kw_pop k (default_value f) kw in
      match field_set f v d with
      | inl e => inl e
      | inr d' => init_fields fs' kw' d'
      end
  end.

(** [Model.__init__], called with keyword arguments [kw]. *)
Definition model_init (m : Model) (kw : list (string * Value)) : Exn + Instance :=
  match init_fields (m_fields m) kw ∅ with
  | inl e => inl e
  | inr (d, []) => inr {| inst_model := m; inst_dict := d |}
  | inr (_, rest) => inl (TypeError (map fst rest))
  end.

(** [setattr(instance, k, v)]: through the descriptor when [k] names a
    field of the class, a plain attribute otherwise. *)
Definition instance_setattr (i : Instance) (k : string) (v : Value) : Exn + Instance :=
  match assoc_lookup k (m_fields (inst_model i)) with
  | Some f =>
      match field_set f v (inst_dict i) with
      | inl e => inl e
      | inr d => inr {| inst_model := inst_model i; inst_dict := d |}
      end
  | None => inr {| inst_model := inst_model i; inst_dict := <[k := v]> (inst_dict i) |}
  end.

(** [getattr(instance, f._attr_name)] for a field [f]. *)
Definition instance_get (i : Instance) (f : Field) : Value :=
  field_get f (inst_dict i).

(* ------------------------------------------------------------------ *)
(** ** query.py: Query objects on a heap *)

(** Query objects and their two lists ([_filters], [_filter_params]) are
    mutable Python objects; they live in a heap, and a query object holds
    references to its lists, so that aliasing between queries is visible. *)
Abbreviation loc := nat.

(** A [Query] object ([db] is left out: it is passed to the terminal
    operations). *)
Record Query : Type := mkQuery {
  model_class : Model;
  q_filters : loc;
  q_filter_params : loc;
  q_order_by : option string;
  q_limit : option Z;
  q_offset : option Z
}.

Definition set_filters (l : loc) (q : Query) : Query :=
  mkQuery (model_class q) l (q_filter_params q) (q_order_by q) (q_limit q) (q_offset q).
Definition set_filter_params (l : loc) (q : Query) : Query :=
  mkQuery (model_class q) (q_filters q) l (q_order_by q) (q_limit q) (q_offset q).
Definition set_order_by (o : option string) (q : Query) : Query :=
  mkQuery (model_class q) (q_filters q) (q_filter_params q) o (q_limit q) (q_offset q).
Definition set_limit (n : option Z) (q : Query) : Query :=
  mkQuery (model_class q) (q_filters q) (q_filter_params q) (q_order_by q) n (q_offset q).
Definition set_offset (n : option Z) (q : Query) : Query :=
  mkQuery (model_class q) (q_filters q) (q_filter_params q) (q_order_by q) (q_limit q) n.

(** The heap: query objects, lists of strings, lists of values, and the
    next free address. *)
Record Store : Type := mkStore {
  s_queries : gmap loc Query;
  s_strs : gmap loc (list string);
  s_vals : gmap loc (list Value);
  s_next : loc
}.

(** Python code raising exceptions over a heap: an exception leaves the
    heap as it was when it was raised. *)
Definition M (A : Type) : Type := Store -> (Exn + A) * Store.

#[global] Instance M_ret : MRet M := fun A x σ => (inr x, σ).
#[global] Instance M_bind : MBind M := fun A B k m σ =>
  match m σ with
  | (inl e, σ') => (inl e, σ')
  | (inr x, σ') => k x σ'
  end.

Definition raise {A} (e : Exn) : M A := fun σ => (inl e, σ).

(** Lifting a pure computation that may raise. *)
Definition lift {A} (r : Exn + A) : M A := fun σ => (r, σ).

Definition alloc_query (q : Query) : M loc := fun σ =>
  (inr (s_next σ),
   mkStore (<[s_next σ := q]> (s_queries σ)) (s_strs σ) (s_vals σ) (S (s_next σ))).
Definition alloc_strs (l : list string) : M loc := fun σ =>
  (inr (s_next σ),
   mkStore (s_queries σ) (<[s_next σ := l]> (s_strs σ)) (s_vals σ) (S (s_next σ))).
Definition alloc_vals (l : list Value) : M loc := fun σ =>
  (inr (s_next σ),
   mkStore (s_queries σ) (s_strs σ) (<[s_next σ := l]> (s_vals σ)) (S (s_next σ))).

(** Reads of a live object; [Dangling] is never raised from a
    well-formed heap (every reference is allocated). *)
Definition read_query (r : loc) : M Query := fun σ =>
  match s_queries σ !! r with Some q => (inr q, σ) | None => (inl (Dangling r), σ) end.
Definition read_strs (r : loc) : M (list string) := fun σ =>
  match s_strs σ !! r with Some l => (inr l, σ) | None => (inl (Dangling r), σ) end.
Definition read_vals (r : loc) : M (list Value) := fun σ =>
  match s_vals σ !! r with Some l => (inr l, σ) | None => (inl (Dangling r), σ) end.

Definition write_query (r : loc) (q : Query) : M unit := fun σ =>
  (inr tt, mkStore (<[r := q]> (s_queries σ)) (s_strs σ) (s_vals σ) (s_next σ)).
Definition write_strs (r : loc) (l : list string) : M unit := fun σ =>
  (inr tt, mkStore (s_queries σ) (<[r := l]> (s_strs σ)) (s_vals σ) (s_next σ)).
Definition write_vals (r : loc) (l : list Value) : M unit := fun σ =>
  (inr tt, mkStore (s_queries σ) (s_strs σ) (<[r := l]> (s_vals σ)) (s_next σ)).

(** [query.attr = ...] on a query object. *)
Definition modify_query (r : loc) (g : Query -> Query) : M unit :=
  q ← read_query r; write_query r (g q).

(** [Query.__init__(model_class, db)]. *)
Definition query_new (m : Model) : M loc :=
  fl ← alloc_strs [];
  pl ← alloc_vals [];
  alloc_query (mkQuery m fl pl None None None).

(** [Query._clone]. *)
Definition clone (self : loc) : M loc :=
  s ← read_query self;
  query ← query_new (model_class s);
  fl ← read_strs (q_filters s);
  fl' ← alloc_strs fl;
  modify_query query (set_filters fl');;
  pl ← read_vals (q_filter_params s);
  pl' ← alloc_vals pl;
  modify_query query (set_filter_params pl');;
  modify_query query (set_order_by (q_order_by s));;
  modify_query query (set_limit (q_limit s));;
  modify_query query (set_offset (q_offset s));;
  mret query.

(** [query._filters.extend(conditions)]. *)
Definition extend_filters (query : loc) (conds : list string) : M unit :=
  q ← read_query query;
  fl ← read_strs (q_filters q);
  write_strs (q_filters q) (fl ++ conds).

(** [query._filter_params.append(value)]. *)
Definition append_param (query : loc) (v : Value) : M unit :=
  q ← read_query query;
  pl ← read_vals (q_filter_params q);
  write_vals (q_filter_params q) (pl ++ [v]).

(** [Query.filter], with the positional [conditions]. *)
Definition filter (self : loc) (conditions : list string) : M loc :=
  query ← clone self;
  extend_filters query conditions;;
  mret query.

(** The loop of [filter_by] over [kwargs.items()]. *)
Fixpoint filter_by_loop (m : Model) (query : loc) (kwargs : list (string * Value)) : M unit :=
  match kwargs with
  | [] => mret tt
  | (attr, value) :: rest =>
      match assoc_lookup attr (m_fields m) with
      | None => raise (ValueError (HasNoFieldNamed (model_name m) attr))
      | Some f =>
          extend_filters query [name f +:+ " = ?"];;
          append_param query value;;
          filter_by_loop m query rest
      end
  end.

(** [Query.filter_by], with the keyword arguments [kwargs]. *)
Definition filter_by (self : loc) (kwargs : list (string * Value)) : M loc :=
  query ← clone self;
  s ← read_query self;
  filter_by_loop (model_class s) query kwargs;;
  mret query.

(** [Query.order_by(field_name, ascending)]. *)
Definition order_by (self : loc) (field_name : string) (ascending : bool) : M loc :=
  query ← clone self;
  s ← read_query self;
  match assoc_lookup field_name (m_fields (model_class s)) with
  | None => raise (ValueError (HasNoFieldNamed (model_name (model_class s)) field_name))
  | Some f =>
      let direction := if ascending then "ASC" else "DESC" in
      modify_query query (set_order_by (Some (name f +:+ " " +:+ direction)));;
      mret query
  end.

(** [Query.limit(limit)]. *)
Definition limit (self : loc) (n : Z) : M loc :=
  query ← clone self;
  modify_query query (set_limit (Some n));;
  mret query.

(** [Query.offset(offset)]. *)
Definition offset (self : loc) (n : Z) : M loc :=
  query ← clone self;
  modify_query query (set_offset (Some n));;
  mret query.

(** [Query._build_sql]. *)
Definition build_sql (self : loc) : M (string * list Value) :=
  s ← read_query self;
  let m := model_class s in
  let fields := map (fun '(_, f) => name f) (m_fields m) in
  let select_sql := "SELECT " +:+ String.concat ", " fields +:+ " FROM " +:+ m_table m in
  fl ← read_strs (q_filters s);
  let parts := [select_sql] in
  let parts := match fl with
               | [] => parts
               | _ => parts ++ ["WHERE " +:+ String.concat " AND " fl]
               end in
  let parts := match q_order_by s with
               | Some o => if bool_decide (o = "") then parts else parts ++ ["ORDER BY " +:+ o]
               | None => parts
               end in
  let parts := match q_limit s with
               | Some n => parts ++ ["LIMIT " +:+ pretty n]
               | None => parts
               end in
  let parts := match q_offset s with
               | Some n =>
                   let parts := match q_limit s with
                                | None => parts ++ ["LIMIT -1"]
                                | Some _ => parts
                                end in
                   parts ++ ["OFFSET " +:+ pretty n]
               | None => parts
               end in
  pl ← read_vals (q_filter_params s);
  mret (String.concat " " parts, pl).

(** A result row ([dict(sqlite3.Row)]): column name to value. *)
Abbreviation Row := (list (string * Value)).

(** The keyword arguments [_row_to_model] builds from a row. *)
Definition row_to_kwargs (m : Model) (row : Row) : list (string * Value) :=
  fold_left (fun kw '(field_name, f) =>
               match assoc_lookup (name f) row with
               | Some v => dict_set field_name v kw
               | None => kw
               end) (m_fields m) [].

(** [Model.select(db)]. *)
Definition select (m : Model) : M loc := query_new m.

Section Database.

(** [db.fetch_one(sql, params)]: the row the storage engine returns, if
    any.  The engine is an external collaborator. *)
Variable fetch_one : string -> list Value -> option Row.

(** [Query._row_to_model]. *)
Definition row_to_model (self : loc) (row : Row) : M Instance :=
  s ← read_query self;
  lift (model_init (model_class s) (row_to_kwargs (model_class s) row)).

(** [Query.first]. *)
Definition first (self : loc) : M (option Instance) :=
  query ← clone self;
  modify_query query (set_limit (Some 1));;
  '(sql, params) ← build_sql query;
  match fetch_one sql params with
  | Some ((_ :: _) as row) => i ← row_to_model self row; mret (Some i)
  | _ => mret None
  end.

(** [Model.get(db, id)]. *)
Definition get (m : Model) (id : Value) : M (option Instance) :=
  match m_primary_key m with
  | None => raise (ValueError (HasNoPrimaryKey (model_name m)))
  | Some pk =>
      query ← select m;
      query ← filter_by query [(attr_name pk, id)];
      first query
  end.

End Database.

(* ------------------------------------------------------------------ *)
(** ** models.py: persistence *)

(** A statement sent to [db.execute]. *)
Abbreviation Stmt := (string * list Value)%type.

(** The [fields] list of [Model._insert]: every field except a primary
    key whose value is still [None]. *)
Definition insert_fields (self : Instance) : list Field :=
  List.filter (fun f => negb (primary_key f && is_none (instance_get self f)))
              (map snd (m_fields (inst_model self))).

(** The statement of [Model._insert]. *)
Definition insert_sql (self : Instance) : string :=
  let fields := insert_fields self in
  let field_names := map name fields in
  let placeholders := String.concat ", " (repeat "?" (length fields)) in
  "INSERT INTO " +:+ m_table (inst_model self) +:+ " (" +:+ String.concat ", " field_names
  +:+ ") VALUES (" +:+ placeholders +:+ ")".

Section Persistence.

(** [cursor.lastrowid] after [db.execute(sql, params)] of an INSERT: the
    storage-assigned row identifier. *)
Variable lastrowid : string -> list Value -> Z.

(** [Model._insert]: the outcome (an exception or the instance after the
    call) and the statements executed. *)
Definition insert (self : Instance) : (Exn + Instance) * list Stmt :=
  let m := inst_model self in
  let fields := insert_fields self in
  let values := map (instance_get self) fields in
  let insert_sql := insert_sql self in
  let cursor_lastrowid := lastrowid insert_sql values in
  let outcome :=
    match m_primary_key m with
    | Some pk =>
        if is_none (instance_get self pk)
        then instance_setattr self (attr_name pk) (VInt cursor_lastrowid)
        else inr self
    | None => inr self
    end in
  (outcome, [(insert_sql, values)]).

(** [Model._update]. *)
Definition update (self : Instance) : (Exn + Instance) * list Stmt :=
  let m := inst_model self in
  match m_primary_key m with
  | None => (inl (ValueError (HasNoPrimaryKey (model_name m))), [])
  | Some pk =>
      let update_fields := List.filter (fun f => negb (primary_key f)) (map snd (m_fields m)) in
      let update_set := String.concat ", " (map (fun f => name f +:+ " = ?") update_fields) in
      let values := map (instance_get self) update_fields in
      let update_sql := "UPDATE " +:+ m_table m +:+ " SET " +:+ update_set
                        +:+ " WHERE " +:+ name pk +:+ " = ?" in
      (inr self, [(update_sql, values ++ [instance_get self pk])])
  end.

(** [Model.save]. *)
Definition save (self : Instance) : (Exn + Instance) * list Stmt :=
  match m_primary_key (inst_model self) with
  | Some pk => if is_none (instance_get self pk) then insert self else update self
  | None => insert self
  end.

End Persistence.

(** [Model.delete]. *)
Definition delete (self : Instance) : (Exn + Instance) * list Stmt :=
  let m := inst_model self in
  match m_primary_key m with
  | None => (inl (ValueError (HasNoPrimaryKey (model_name m))), [])
  | Some pk =>
      let pk_value := instance_get self pk in
      let delete_sql := "DELETE FROM " +:+ m_table m +:+ " WHERE " +:+ name pk +:+ " = ?" in
      (instance_setattr self (attr_name pk) VNone, [(delete_sql, [pk_value])])
  end.

(* ------------------------------------------------------------------ *)
(** ** Example models *)

(** [XField(primary_key=pk, nullable=nullable, default=dflt)]. *)
Definition declared (k : FieldKind) (pk nullable : bool) (dflt : Value) : ClassAttr :=
  AttrField (mkFieldDecl None pk nullable dflt k).

(** [TestModel] of tests/test_orm.py. *)
Definition test_model_decl : ClassDecl :=
  mkClassDecl "TestModel"
    [("__module__", AttrOther); ("__table__", AttrOther);
     ("id", declared IntegerField true true VNone);
     ("name", declared (StringField 100) false false VNone);
     ("description", declared (StringField 500) false true VNone);
     ("active", declared BooleanField false true (VBool true));
     ("price", declared FloatField false true (VFloat 0))]
    (Some "test_models").

Definition TestModel : Model := model_fields test_model_decl.

(** The empty heap. *)
Definition empty_store : Store := mkStore ∅ ∅ ∅ 0.

(** A class with two fields marked [primary_key=True]. *)
Definition pair_decl : ClassDecl :=
  mkClassDecl "Pair"
    [("a", declared IntegerField true true VNone);
     ("b", declared IntegerField true true VNone)] None.

(** [Post] of main.py. *)
Definition post_decl : ClassDecl :=
  mkClassDecl "Post"
    [("id", declared IntegerField true true VNone);
     ("title", declared (StringField 200) false false VNone);
     ("content", declared (StringField 1000) false true VNone);
     ("author_id", declared IntegerField false false VNone);
     ("is_published", declared BooleanField false true (VBool false));
     ("created_at", declared (DateTimeField false true) false true VNone);
     ("updated_at", declared (DateTimeField false true) false true VNone)]
    (Some "posts").

Definition Post : Model := model_fields post_decl.

(** A class whose primary key is a string column. *)
Definition tag_decl : ClassDecl :=
  mkClassDecl "Tag"
    [("code", declared (StringField 20) true true VNone);
     ("label", declared (StringField 100) false true VNone)] None.

(** A class whose primary key is declared [nullable=False]. *)
Definition account_decl : ClassDecl :=
  mkClassDecl "Account"
    [("id", declared IntegerField true false VNone);
     ("owner", declared (StringField 50) false true VNone)] None.

(** A class without a primary key. *)
Definition log_decl : ClassDecl :=
  mkClassDecl "Log" [("message", declared (StringField 200) false true VNone)] None.

(* ------------------------------------------------------------------ *)
(** ** Observing queries *)

(** What a query object holds, read through the heap. *)
Record QueryView : Type := mkView {
  v_model : Model;
  v_filters : list string;
  v_params : list Value;
  v_order : option string;
  v_limit : option Z;
  v_offset : option Z
}.

Definition qview (σ : Store) (r : loc) : option QueryView :=
  match s_queries σ !! r with
  | Some q =>
      match s_strs σ !! q_filters q, s_vals σ !! q_filter_params q with
      | Some fl, Some pl =>
          Some (mkView (model_class q) fl pl (q_order_by q) (q_limit q) (q_offset q))
      | _, _ => None
      end
  | None => None
  end.

(** A query object allocated in the heap, with its two lists. *)
Definition live (σ : Store) (r : loc) : Prop :=
  match s_queries σ !! r with
  | Some q => (r < s_next σ)%nat /\ (q_filters q < s_next σ)%nat /\
              (q_filter_params q < s_next σ)%nat /\ is_Some (qview σ r)
  | None => False
  end.

(** The predicates and parameters [filter_by] appends for [kwargs]
    (none when a keyword names no field). *)
Fixpoint resolve_filters (m : Model) (kwargs : list (string * Value))
    : option (list string * list Value) :=
  match kwargs with
  | [] => Some ([], [])
  | (attr, value) :: rest =>
      match assoc_lookup attr (m_fields m), resolve_filters m rest with
      | Some f, Some (cs, ps) => Some ((name f +:+ " = ?") :: cs, value :: ps)
      | _, _ => None
      end
  end.

(** A builder call [op] on the query [r] of heap [σ], whose view is [v]:
    afterwards [r] is still live with the same view, and the call either
    returned a new live query with view [v'] (when [expected = Some v'])
    or raised (when [expected = None]). *)
Definition builder_post (σ : Store) (r : loc) (v : QueryView) (op : M loc)
    (expected : option QueryView) : Prop :=
  let '(res, σ') := op σ in
  qview σ' r = Some v /\ live σ' r /\
  match expected with
  | Some v' => exists r', res = inr r' /\ r' <> r /\ live σ' r' /\ qview σ' r' = Some v'
  | None => exists e, res = inl e
  end.

(** The spec's compilation of a query view: [SELECT <columns> FROM
    <table>], then [WHERE] with the filters joined by [AND] (if any),
    [ORDER BY] (if set), [LIMIT] (the sentinel [LIMIT -1] when only an
    offset is set), then [OFFSET]. *)
Definition select_clause (m : Model) : string :=
  "SELECT " +:+ String.concat ", " (map (fun '(_, f) => name f) (m_fields m))
  +:+ " FROM " +:+ m_table m.

Definition where_clauses (fl : list string) : list string :=
  match fl with [] => [] | _ => ["WHERE " +:+ String.concat " AND " fl] end.

Definition order_clauses (o : option string) : list string :=
  match o with Some c => ["ORDER BY " +:+ c] | None => [] end.

Definition limit_clauses (lim off : option Z) : list string :=
  match lim, off with
  | Some n, _ => ["LIMIT " +:+ pretty n]
  | None, Some _ => ["LIMIT -1"]
  | None, None => []
  end.

Definition offset_clauses (off : option Z) : list string :=
  match off with Some n => ["OFFSET " +:+ pretty n] | None => [] end.

Definition compiled_select (v : QueryView) : string :=
  String.concat " " ([select_clause (v_model v)] ++ where_clauses (v_filters v)
                     ++ order_clauses (v_order v) ++ limit_clauses (v_limit v) (v_offset v)
                     ++ offset_clauses (v_offset v)).

(** Well-formed field lists: each field is bound under its attribute name,
    and the names are distinct (a Python dict). *)
Definition wf_fields (fs : list (string * Field)) : Prop :=
  NoDup (map fst fs) /\ Forall (fun kf => attr_name kf.2 = kf.1) fs.

(** The heap after a run of code that allocated above [n] and wrote
    only there. *)
Definition agree_below (n : loc) (σ σ' : Store) : Prop :=
  forall l, (l < n)%nat ->
    s_queries σ' !! l = s_queries σ !! l /\ s_strs σ' !! l = s_strs σ !! l /\
    s_vals σ' !! l = s_vals σ !! l.

(** Nothing but the two lists [a] (strings) and [b] (values) changed. *)
Definition frame_except (a b : loc) (σ1 σ2 : Store) : Prop :=
  s_queries σ2 = s_queries σ1 /\ s_next σ2 = s_next σ1 /\
  (forall l, l <> a -> s_strs σ2 !! l = s_strs σ1 !! l) /\
  (forall l, l <> b -> s_vals σ2 !! l = s_vals σ1 !! l).

(** The spec's reading of [get(id)]: the query pipeline
    [select().filter_by(<primary key> = id).first()]. *)
Definition select_filter_first (fetch_one : string -> list Value -> option Row)
    (m : Model) (pk : Field) (id : Value) : M (option Instance) :=
  query ← select m;
  query ← filter_by query [(attr_name pk, id)];
  first fetch_one query.

(* ------------------------------------------------------------------ *)
(** ** models.py: [to_dict], [__repr__], [create_table], [drop_table] *)

(** [Model.to_dict]: [{field_name: getattr(self, field_name)}] over
    [__fields__]; the attribute [field_name] is the descriptor [f]. *)
Definition to_dict (self : Instance) : list (string * Value) :=
  map (fun '(field_name, f) => (field_name, instance_get self f)) (m_fields (inst_model self)).

Section Formatting.

(** [str(v)] of a Python value, as an f-string renders it. *)
Variable py_str : Value -> string.

(** [Model.__repr__]. *)
Definition repr (self : Instance) : string :=
  let m := inst_model self in
  match m_primary_key m with
  | Some pk =>
      if negb (is_none (instance_get self pk))
      then "<" +:+ model_name m +:+ " " +:+ attr_name pk +:+ "=" +:+ py_str (instance_get self pk) +:+ ">"
      else "<" +:+ model_name m +:+ " (unsaved)>"
  | None => "<" +:+ model_name m +:+ " (unsaved)>"
  end.

(** [db_type] of each field class. *)
Definition db_type (k : FieldKind) : string :=
  match k with
  | IntegerField => "INTEGER"
  | StringField ml => "VARCHAR(" +:+ pretty ml +:+ ")"
  | BooleanField => "BOOLEAN"
  | DateTimeField _ _ => "DATETIME"
  | FloatField => "FLOAT"
  end.

(** The column definition [create_table] builds for a field. *)
Definition column_sql (field : Field) : string :=
  let field_sql := name field +:+ " " +:+ db_type (kind field) in
  let field_sql := if primary_key field then field_sql +:+ " PRIMARY KEY" else field_sql in
  let field_sql := if negb (nullable field) then field_sql +:+ " NOT NULL" else field_sql in
  match default_value field with
  | VNone => field_sql
  | VStr s => field_sql +:+ " DEFAULT '" +:+ s +:+ "'"
  | d => field_sql +:+ " DEFAULT " +:+ py_str d
  end.

(** The statement of [Model.create_table]. *)
Definition create_table_sql (m : Model) : string :=
  "CREATE TABLE IF NOT EXISTS " +:+ m_table m +:+ " ("
  +:+ String.concat ", " (map (fun '(_, f) => column_sql f) (m_fields m)) +:+ ")".

End Formatting.

(** The fields of a class body in order, as [__set_name__] binds them. *)
Fixpoint decl_fields (attrs : list (string * ClassAttr)) : list (string * Field) :=
  match attrs with
  | [] => []
  | (a, AttrField fd) :: rest => (a, set_name a fd) :: decl_fields rest
  | (_, AttrOther) :: rest => decl_fields rest
  end.

(* ------------------------------------------------------------------ *)
(** ** query.py: [all], [count], [__getattr__] *)

(** [KeyError(key)] of a dict subscript. *)
Inductive KeyError : Type := KeyErrorOf (key : string).

Section Fetching.

(** [db.fetch_one(sql, params)] and [db.fetch_all(sql, params)]: the
    rows the storage engine returns. *)
Variable fetch_one : string -> list Value -> option Row.
Variable fetch_all : string -> list Value -> list Row.

(** The list comprehension of [all]: [[self._row_to_model(row) for row in rows]]. *)
Fixpoint rows_to_models (self : loc) (rows : list Row) : M (list Instance) :=
  match rows with
  | [] => mret []
  | row :: rest =>
      i ← row_to_model self row;
      is ← rows_to_models self rest;
      mret (i :: is)
  end.

(** [Query.all]. *)
Definition all (self : loc) : M (list Instance) :=
  '(sql, params) ← build_sql self;
  rows_to_models self (fetch_all sql params).

(** [Query.count]: the value of the count column of the row, or a [KeyError]
    when the row has no such column. *)
Definition count (self : loc) : M (KeyError + Value) :=
  s ← read_query self;
  let sql := "SELECT COUNT(*) FROM " +:+ m_table (model_class s) in
  params ← read_vals (q_filter_params s);
  fl ← read_strs (q_filters s);
  let sql := match fl with
             | [] => sql
             | _ => sql +:+ " WHERE " +:+ String.concat " AND " fl
             end in
  mret (match fetch_one sql params with
        | Some ((_ :: _) as row) =>
            match assoc_lookup "COUNT(*)" row with
            | Some v => inr v
            | None => inl (KeyErrorOf "COUNT(*)")
            end
        | _ => inr (VInt 0)
        end).

End Fetching.

(** The exceptions of [Query.__getattr__] and of the function it returns. *)
Inductive DynError : Type :=
| MissingParameter (field_name : string)
| NoAttribute (cls : string) (attr : string).

(** The function [dynamic_filter] with keyword arguments [kwargs], the closure of [__getattr__] over [self]
    and [field_name]. *)
Definition dynamic_filter (self : loc) (field_name : string)
    (kwargs : list (string * Value)) : DynError + M loc :=
  match assoc_lookup field_name kwargs with
  | None => inl (MissingParameter field_name)
  | Some v => inr (filter_by self [(field_name, v)])
  end.

(** [Query.__getattr__(name)], called for a name that is not an attribute
    of the query. *)
Definition query_getattr (self : loc) (attr : string)
    : DynError + (list (string * Value) -> DynError + M loc) :=
  if String.prefix "filter_by_" attr
  then inr (dynamic_filter self (String.substring 10 (String.length attr - 10) attr))
  else inl (NoAttribute "Query" attr).

(** A call of a builder method, as in a chain
    [select(db).filter_by(...).order_by(...).limit(...)]. *)
Inductive BuilderCall : Type :=
| CallFilter (conditions : list string)
| CallFilterBy (kwargs : list (string * Value))
| CallOrderBy (field_name : string) (ascending : bool)
| CallLimit (n : Z)
| CallOffset (n : Z).

Definition run_call (c : BuilderCall) (self : loc) : M loc :=
  match c with
  | CallFilter conds => filter self conds
  | CallFilterBy kw => filter_by self kw
  | CallOrderBy fname asc => order_by self fname asc
  | CallLimit n => limit self n
  | CallOffset n => offset self n
  end.

(** [self.c1(...).c2(...)...]: each call on the query the previous one returned. *)
Fixpoint run_chain (cs : list BuilderCall) (self : loc) : M loc :=
  match cs with
  | [] => mret self
  | c :: cs' => query ← run_call c self; run_chain cs' query
  end.

(** The view a builder call gives, read off [query.py]: [filter] and
    [filter_by] append, the others replace; [None] when it raises. *)
Definition call_view (c : BuilderCall) (v : QueryView) : option QueryView :=
  match c with
  | CallFilter conds =>
      Some (mkView (v_model v) (v_filters v ++ conds) (v_params v)
                   (v_order v) (v_limit v) (v_offset v))
  | CallFilterBy kw =>
      match resolve_filters (v_model v) kw with
      | Some (cs, ps) => Some (mkView (v_model v) (v_filters v ++ cs) (v_params v ++ ps)
                                      (v_order v) (v_limit v) (v_offset v))
      | None => None
      end
  | CallOrderBy fname asc =>
      match assoc_lookup fname (m_fields (v_model v)) with
      | Some f => Some (mkView (v_model v) (v_filters v) (v_params v)
                          (Some (name f +:+ " " +:+ if asc then "ASC" else "DESC"))
                          (v_limit v) (v_offset v))
      | None => None
      end
  | CallLimit n => Some (mkView (v_model v) (v_filters v) (v_params v) (v_order v) (Some n) (v_offset v))
  | CallOffset n => Some (mkView (v_model v) (v_filters v) (v_params v) (v_order v) (v_limit v) (Some n))
  end.

Fixpoint chain_view (cs : list BuilderCall) (v : QueryView) : option QueryView :=
  match cs with
  | [] => Some v
  | c :: cs' => match call_view c v with Some v' => chain_view cs' v' | None => None end
  end.

(** The heap after code that only allocated above the old [s_next] and
    wrote only there. *)
Definition heap_grows (σ σ' : Store) : Prop :=
  agree_below (s_next σ) σ σ' /\ (s_next σ <= s_next σ')%nat.

(** [all] read off [query.py] as a pure function of the rows: one
    instance per row, in order, the first row failing raising. *)
Fixpoint hydrate_all (m : Model) (rows : list Row) : Exn + list Instance :=
  match rows with
  | [] => inr []
  | row :: rest =>
      match model_init m (row_to_kwargs m row) with
      | inl e => inl e
      | inr i => match hydrate_all m rest with inl e => inl e | inr is => inr (i :: is) end
      end
  end.

(* ------------------------------------------------------------------ *)
(** ** db.py *)

(** A [Database] object: [db_url], and whether [_connection] and
    [_cursor] are set (not [None]). *)
Record Database : Type := mkDatabase {
  db_url : string;
  db_connection : bool;
  db_cursor : bool
}.

(** What the object does to the sqlite3 connection and cursor. *)
Inductive DbEvent : Type :=
| EvConnect (url : string)
| EvExecute (sql : string) (params : list Value)
| EvCommit
| EvRollback
| EvCursorClose
| EvConnectionClose.

Inductive DbExn : Type :=
| RuntimeError (msg : string)
| AttributeError (msg : string).

(** A method of [Database]: its outcome, the object afterwards, and the
    calls it made on sqlite3, in order. *)
Definition DbM (A : Type) : Type := Database -> (DbExn + A) * Database * list DbEvent.

#[global] Instance DbM_ret : MRet DbM := fun A x db => (inr x, db, []).
#[global] Instance DbM_bind : MBind DbM := fun A B k m db =>
  match m db with
  | (inl e, db', ev) => (inl e, db', ev)
  | (inr x, db', ev) => let '(r, db'', ev') := k x db' in (r, db'', ev ++ ev')
  end.

Definition not_established : string := "Database connection not established".

(** [Database(db_url)]. *)
Definition database_new (url : string) : Database := mkDatabase url false false.

Section Engine.

(** The rows the storage engine yields for a statement. *)
Variable engine : string -> list Value -> list Row.

(** [connect]. *)
Definition db_connect : DbM unit := fun db =>
  (inr tt, mkDatabase (db_url db) true true, [EvConnect (db_url db)]).

(** [close]. *)
Definition db_close : DbM unit := fun db =>
  let '(db1, ev1) := if db_cursor db
                     then (mkDatabase (db_url db) (db_connection db) false, [EvCursorClose])
                     else (db, []) in
  let '(db2, ev2) := if db_connection db1
                     then (mkDatabase (db_url db1) false (db_cursor db1), [EvConnectionClose])
                     else (db1, []) in
  (inr tt, db2, ev1 ++ ev2).

(** [params or ()]. *)
Definition params_or_empty (params : option (list Value)) : list Value :=
  match params with Some ps => ps | None => [] end.

(** [execute]: the rows of the cursor the call returns. *)
Definition db_execute (sql : string) (params : option (list Value)) : DbM (list Row) := fun db =>
  if db_cursor db
  then (inr (engine sql (params_or_empty params)), db, [EvExecute sql (params_or_empty params)])
  else (inl (RuntimeError not_established), db, []).

(** [fetch_one]: [dict(row)] of the first row if it is non-empty. *)
Definition db_fetch_one (sql : string) (params : option (list Value)) : DbM (option Row) :=
  rows ← db_execute sql params;
  mret (match rows with
        | ((_ :: _) as row) :: _ => Some row
        | _ => None
        end).

(** [fetch_all]. *)
Definition db_fetch_all (sql : string) (params : option (list Value)) : DbM (list Row) :=
  db_execute sql params.

(** [commit] and [rollback]. *)
Definition db_commit : DbM unit := fun db =>
  if db_connection db then (inr tt, db, [EvCommit])
  else (inl (RuntimeError not_established), db, []).

Definition db_rollback : DbM unit := fun db =>
  if db_connection db then (inr tt, db, [EvRollback])
  else (inl (RuntimeError not_established), db, []).

(** [get_cursor]. *)
Definition db_get_cursor : DbM unit := fun db =>
  if db_cursor db then (inr tt, db, [])
  else (inl (RuntimeError not_established), db, []).

(** [__enter__]. *)
Definition db_enter : DbM unit := db_connect.

(** [__exit__], told whether the block raised: [self._connection.commit()]
    or [.rollback()] on a [None] connection raises [AttributeError]. *)
Definition db_exit (raised : bool) : DbM unit := fun db =>
  if db_connection db
  then ((fun db => (inr tt, db, [if raised then EvRollback else EvCommit])) ≫= fun _ => db_close) db
  else (inl (AttributeError (if raised
                             then "'NoneType' object has no attribute 'rollback'"
                             else "'NoneType' object has no attribute 'commit'")), db, []).

(** [with Database(url) as db: body]: [__exit__] returns [None], so an
    exception of the body propagates once [__exit__] has run (unless
    [__exit__] raises its own). *)
Definition with_database {A} (url : string) (body : DbM A) : (DbExn + A) * Database * list DbEvent :=
  match db_enter (database_new url) with
  | (inl e, db1, ev1) => (inl e, db1, ev1)
  | (inr _, db1, ev1) =>
      match body db1 with
      | (inr x, db2, ev2) =>
          let '(r, db3, ev3) := db_exit false db2 in
          (match r with inl e => inl e | inr _ => inr x end, db3, ev1 ++ ev2 ++ ev3)
      | (inl e, db2, ev2) =>
          let '(r, db3, ev3) := db_exit true db2 in
          (match r with inl e' => inl e' | inr _ => inl e end, db3, ev1 ++ ev2 ++ ev3)
      end
  end.

(** [Model.create_table(db)] and [Model.drop_table(db)]. *)
Definition create_table (py_str : Value -> string) (m : Model) : DbM unit :=
  db_execute (create_table_sql py_str m) None;; db_commit.

Definition drop_table (m : Model) : DbM unit :=
  db_execute ("DROP TABLE IF EXISTS " +:+ m_table m) None;; mret tt.

End Engine.

(* ------------------------------------------------------------------ *)
(** * Properties *)

Ltac str_cases a b := destruct (String.eqb_spec a b); subst.

(** Helpers used below on the value popped for a declared field. *)
Definition popped (k : string) (f : Field) (kw : list (string * Value)) : Value :=
  match assoc_lookup k kw with Some v => v | None => default_value f end.

(** [k in ks] on a list of names. *)
Definition key_in (k : string) (ks : list string) : bool := existsb (String.eqb k) ks.

(** The fields marked primary key, in class-body order. *)
Fixpoint pk_fields (attrs : list (string * ClassAttr)) : list Field :=
  match attrs with
  | [] => []
  | (a, AttrField fd) :: rest =>
      if fd_primary_key fd then set_name a fd :: pk_fields rest else pk_fields rest
  | (_, AttrOther) :: rest => pk_fields rest
  end.

(** ** Keyword arguments *)

Lemma assoc_lookup_kw_remove_ne k k0 (kw : list (string * Value)) :
  k <> k0 -> assoc_lookup k (kw_remove k0 kw) = assoc_lookup k kw.
Proof.
  intros Hne. induction kw as [|[k' v] kw IH]; simpl; [done|].
  str_cases k0 k'; simpl.
  - str_cases k k'; [done|reflexivity].
  - str_cases k k'; [done|exact IH].
Qed.

Lemma assoc_lookup_kw_remove_None k k0 (kw : list (string * Value)) :
  assoc_lookup k kw = None -> assoc_lookup k (kw_remove k0 kw) = None.
Proof.
  induction kw as [|[k' v] kw IH]; simpl; [done|].
  intros H. str_cases k k'; [discriminate|].
  str_cases k0 k'; simpl; [exact H|].
  destruct (String.eqb_spec k k'); [done|auto].
Qed.

Lemma kw_pop_popped k f kw :
  kw_pop k (default_value f) kw = (popped k f kw, kw_remove k kw) \/
  (kw_pop k (default_value f) kw = (popped k f kw, kw) /\ assoc_lookup k kw = None).
Proof.
  unfold kw_pop, popped. destruct (assoc_lookup k kw); [left|right]; done.
Qed.

Lemma kw_remove_notin k (kw : list (string * Value)) :
  key_in k (map fst kw) = false -> kw_remove k kw = kw.
Proof.
  induction kw as [|[k' v] kw IH]; simpl; [done|].
  unfold key_in; simpl. intros H. apply orb_false_iff in H as [H1 H2].
  rewrite H1. f_equal. apply IH. exact H2.
Qed.

Lemma key_in_assoc_lookup k (kw : list (string * Value)) :
  assoc_lookup k kw = None <-> key_in k (map fst kw) = false.
Proof.
  induction kw as [|[k' v] kw IH]; simpl; [done|].
  unfold key_in in *; simpl. str_cases k k'; simpl.
  - split; discriminate.
  - exact IH.
Qed.

Lemma kw_pop_eq k f kw :
  kw_pop k (default_value f) kw = (popped k f kw, kw_remove k kw).
Proof.
  destruct (kw_pop_popped k f kw) as [H|[H Hn]]; [exact H|].
  rewrite H, kw_remove_notin; [done|]. by apply key_in_assoc_lookup.
Qed.

Lemma filter_key_remove k (kw : list (string * Value)) :
  NoDup (map fst kw) ->
  map fst (kw_remove k kw) = List.filter (fun k' => negb (String.eqb k k')) (map fst kw).
Proof.
  induction kw as [|[k' v] kw IH]; simpl; [done|].
  intros Hnd. apply NoDup_cons in Hnd as [Hnin Hnd].
  str_cases k k'; simpl.
  - symmetry. apply List.forallb_filter_id.
    apply forallb_forall. intros x Hx. apply negb_true_iff, String.eqb_neq.
    intros <-. apply Hnin. by apply list_elem_of_In.
  - f_equal. auto.
Qed.

Lemma NoDup_kw_remove k (kw : list (string * Value)) :
  NoDup (map fst kw) -> NoDup (map fst (kw_remove k kw)).
Proof.
  intros Hnd. rewrite filter_key_remove by done.
  apply NoDup_ListNoDup. apply List.NoDup_filter. by apply NoDup_ListNoDup.
Qed.

(** ** The loop of [Model.__init__] *)

Lemma field_set_error f v d e : field_set f v d = inl e -> exists r, e = ValueError r.
Proof.
  unfold field_set, validate.
  destruct (negb (nullable f) && is_none v); [intros [= <-]; eauto|].
  destruct (kind f); repeat case_match; intros; simplify_eq; eauto.
Qed.

Lemma field_set_ok f v d d' :
  field_set f v d = inr d' -> d' = <[attr_name f := stored_value f v]> d.
Proof.
  unfold field_set. destruct (negb (nullable f) && is_none v); [discriminate|].
  destruct (validate f v); congruence.
Qed.

Lemma init_fields_app fs1 fs2 kw d :
  init_fields (fs1 ++ fs2) kw d =
  match init_fields fs1 kw d with
  | inl e => inl e
  | inr (d1, kw1) => init_fields fs2 kw1 d1
  end.
Proof.
  revert kw d. induction fs1 as [|[k f] fs1 IH]; intros kw d; simpl; [done|].
  destruct (kw_pop k (default_value f) kw). destruct (field_set f v d); auto.
Qed.

Lemma init_fields_error fs kw d e :
  init_fields fs kw d = inl e -> exists r, e = ValueError r.
Proof.
  revert kw d. induction fs as [|[k f] fs IH]; intros kw d; simpl; [discriminate|].
  destruct (kw_pop k (default_value f) kw).
  destruct (field_set f v d) eqn:E; [intros [= <-]; eapply field_set_error; eauto|eauto].
Qed.

Lemma init_fields_keep fs kw d d' kw' k :
  Forall (fun kf => attr_name kf.2 = kf.1) fs ->
  init_fields fs kw d = inr (d', kw') -> k ∉ map fst fs -> d' !! k = d !! k.
Proof.
  revert kw d. induction fs as [|[k0 f0] fs IH]; intros kw d Hf; simpl; [congruence|].
  apply Forall_cons in Hf as [Hk0 Hfs]; simpl in Hk0.
  rewrite kw_pop_eq. destruct (field_set f0 _ d) eqn:E; [discriminate|].
  intros Hi Hn. apply not_elem_of_cons in Hn as [Hne Hn].
  rewrite (IH _ _ Hfs Hi Hn). apply field_set_ok in E.
  rewrite E, Hk0. apply lookup_insert_ne. congruence.
Qed.

Lemma init_fields_lookup fs kw d d' kw' k f :
  wf_fields fs -> init_fields fs kw d = inr (d', kw') -> In (k, f) fs ->
  d' !! k = Some (stored_value f (popped k f kw)).
Proof.
  revert kw d. induction fs as [|[k0 f0] fs IH]; intros kw d [Hnd Hf]; simpl; [done|].
  simpl in Hnd. apply NoDup_cons in Hnd as [Hnin Hnd].
  apply Forall_cons in Hf as [Hk0 Hfs]; simpl in Hk0.
  rewrite kw_pop_eq. destruct (field_set f0 _ d) eqn:E; [discriminate|].
  intros Hi [[= <- <-]|Hin].
  - rewrite (init_fields_keep _ _ _ _ _ _ Hfs Hi Hnin).
    apply field_set_ok in E. rewrite E, Hk0. by rewrite lookup_insert_eq.
  - rewrite (IH _ _ (conj Hnd Hfs) Hi Hin). unfold popped.
    rewrite assoc_lookup_kw_remove_ne; [done|].
    intros ->. apply Hnin. apply list_elem_of_In, in_map_iff. exists (k0, f); auto.
Qed.

Lemma init_fields_fail fs kw d k f :
  NoDup (map fst fs) -> In (k, f) fs ->
  (forall d0, exists r, field_set f (popped k f kw) d0 = inl (ValueError r)) ->
  exists r, init_fields fs kw d = inl (ValueError r).
Proof.
  revert kw d. induction fs as [|[k0 f0] fs IH]; intros kw d Hnd; simpl; [done|].
  simpl in Hnd. apply NoDup_cons in Hnd as [Hnin Hnd].
  rewrite kw_pop_eq. intros [[= <- <-]|Hin] Hfail.
  - destruct (Hfail d) as [r Hr]. rewrite Hr. eauto.
  - destruct (field_set f0 _ d) eqn:E.
    + apply field_set_error in E as [r ->]. eauto.
    + apply IH; [done|done|]. unfold popped.
      rewrite assoc_lookup_kw_remove_ne; [exact Hfail|].
      intros ->. apply Hnin. apply list_elem_of_In, in_map_iff. exists (k0, f); auto.
Qed.

Lemma filter_filter_bool {A} (p q : A -> bool) (l : list A) :
  List.filter p (List.filter q l) = List.filter (fun x => q x && p x) l.
Proof.
  induction l as [|x l IH]; simpl; [done|].
  destruct (q x) eqn:Eq, (p x) eqn:Ep; cbn; rewrite ?Eq, ?Ep, ?IH; reflexivity.
Qed.

Lemma init_fields_rest fs kw d d' kw' :
  NoDup (map fst kw) -> init_fields fs kw d = inr (d', kw') ->
  map fst kw' = List.filter (fun k => negb (key_in k (map fst fs))) (map fst kw).
Proof.
  revert kw d. induction fs as [|[k0 f0] fs IH]; intros kw d Hnd; simpl.
  - intros [= <- <-]. symmetry. apply List.forallb_filter_id, forallb_forall. done.
  - rewrite kw_pop_eq. destruct (field_set f0 _ d); [discriminate|].
    intros Hi. rewrite (IH _ _ (NoDup_kw_remove k0 kw Hnd) Hi).
    rewrite filter_key_remove by done. rewrite filter_filter_bool.
    apply List.filter_ext. intros x. unfold key_in; simpl.
    rewrite (String.eqb_sym x k0). by destruct (String.eqb k0 x).
Qed.

(** ** Registration *)

Lemma dict_set_keys {A} a (x : A) l y :
  In y (map fst (dict_set a x l)) <-> y = a \/ In y (map fst l).
Proof.
  induction l as [|[k' z] l IH]; simpl; [naive_solver|].
  str_cases a k'; simpl; [naive_solver|]. rewrite IH. naive_solver.
Qed.

Lemma dict_set_wf a fd l :
  wf_fields l -> wf_fields (dict_set a (set_name a fd) l).
Proof.
  induction l as [|[k' z] l IH]; intros [Hnd Hf]; simpl.
  - split; [constructor; [set_solver|constructor]|by repeat constructor].
  - simpl in Hnd. apply NoDup_cons in Hnd as [Hnin Hnd]. apply Forall_cons in Hf as [Hk' Hfs]; simpl in Hk'.
    destruct (String.eqb_spec a k') as [<-|Hne]; simpl.
    + split; [by apply NoDup_cons|by constructor].
    + destruct (IH (conj Hnd Hfs)) as [Hnd' Hf']. split; [|by constructor].
      apply NoDup_cons. split; [|done]. simpl.
      intros Hin. apply list_elem_of_In, dict_set_keys in Hin as [->|Hin]; [done|].
      apply Hnin. by apply list_elem_of_In.
Qed.

Lemma collect_fields_wf attrs fs pk :
  wf_fields fs -> wf_fields (collect_fields attrs fs pk).1.
Proof.
  revert fs pk. induction attrs as [|[a [fd|]] attrs IH]; intros fs pk Hwf; simpl; auto.
  apply IH. by apply dict_set_wf.
Qed.

Lemma m_fields_model_fields c :
  m_fields (model_fields c) = (collect_fields (cls_dict c) [] None).1.
Proof. unfold model_fields. by destruct (collect_fields _ _ _). Qed.

Lemma m_primary_key_model_fields c :
  m_primary_key (model_fields c) = (collect_fields (cls_dict c) [] None).2.
Proof. unfold model_fields. by destruct (collect_fields _ _ _). Qed.

Lemma model_fields_wf c : wf_fields (m_fields (model_fields c)).
Proof.
  rewrite m_fields_model_fields. apply collect_fields_wf.
  split; [constructor|constructor].
Qed.

Lemma collect_fields_pk attrs fs pk :
  (collect_fields attrs fs pk).2 =
  match last (pk_fields attrs) with Some f => Some f | None => pk end.
Proof.
  revert fs pk. induction attrs as [|[a [fd|]] attrs IH]; intros fs pk; simpl; auto.
  rewrite IH. replace (primary_key (set_name a fd)) with (fd_primary_key fd) by reflexivity.
  destruct (fd_primary_key fd); [|done].
  rewrite last_cons. by destruct (last (pk_fields attrs)).
Qed.

Lemma assoc_lookup_In {A} (l : list (string * A)) k x :
  NoDup (map fst l) -> In (k, x) l -> assoc_lookup k l = Some x.
Proof.
  induction l as [|[k' y] l IH]; simpl; [done|].
  intros Hnd. apply NoDup_cons in Hnd as [Hnin Hnd].
  intros [[= -> ->]|Hin].
  - by rewrite String.eqb_refl.
  - destruct (String.eqb_spec k k') as [->|Hne]; [|auto].
    exfalso. apply Hnin, list_elem_of_In, in_map_iff. exists (k', x); auto.
Qed.

Lemma wf_fields_attr fs k f : wf_fields fs -> In (k, f) fs -> attr_name f = k.
Proof.
  intros [_ Hf] Hin. rewrite Forall_forall in Hf.
  apply (Hf (k, f)), list_elem_of_In, Hin.
Qed.

Lemma init_fields_kw_lookup fs kw d d1 kw1 k :
  init_fields fs kw d = inr (d1, kw1) -> k ∉ map fst fs ->
  assoc_lookup k kw1 = assoc_lookup k kw.
Proof.
  revert kw d. induction fs as [|[k0 f0] fs IH]; intros kw d; simpl; [congruence|].
  rewrite kw_pop_eq. destruct (field_set f0 _ d); [discriminate|].
  intros Hi Hn. apply not_elem_of_cons in Hn as [Hne Hn].
  rewrite (IH _ _ Hi Hn). by apply assoc_lookup_kw_remove_ne.
Qed.

Lemma model_init_error m kw e :
  init_fields (m_fields m) kw ∅ = inl e -> model_init m kw = inl e.
Proof. unfold model_init. by intros ->. Qed.

Lemma model_init_ok m kw i :
  model_init m kw = inr i ->
  exists d, init_fields (m_fields m) kw ∅ = inr (d, []) /\ inst_dict i = d.
Proof.
  unfold model_init. destruct (init_fields _ _ _) as [e|[d [|? ?]]]; try discriminate.
  intros [= <-]. eauto.
Qed.

Lemma model_init_stored c kw i k f :
  In (k, f) (m_fields (model_fields c)) -> model_init (model_fields c) kw = inr i ->
  inst_dict i !! k = Some (stored_value f (popped k f kw)).
Proof.
  intros Hin Hi. apply model_init_ok in Hi as (d & Hd & ->).
  eapply init_fields_lookup; [apply model_fields_wf|exact Hd|exact Hin].
Qed.

Lemma model_init_fail c kw k f :
  In (k, f) (m_fields (model_fields c)) ->
  (forall d0, exists r, field_set f (popped k f kw) d0 = inl (ValueError r)) ->
  exists r, model_init (model_fields c) kw = inl (ValueError r).
Proof.
  intros Hin Hfail.
  destruct (init_fields_fail _ kw ∅ k f (proj1 (model_fields_wf c)) Hin Hfail) as [r Hr].
  exists r. by apply model_init_error.
Qed.

(** ** Claims on registration and construction *)

(** C1 (counterexample): registering [Pair], whose fields [a] and [b]
    are both marked [primary_key=True], raises nothing: [model_fields]
    returns a schema holding both fields, with [b] as its primary key. *)
Lemma C1_two_primary_keys_accepted :
  map fst (m_fields (model_fields pair_decl)) = ["a"; "b"] /\
  option_map attr_name (m_primary_key (model_fields pair_decl)) = Some "b".
Proof. split; reflexivity. Qed.

(** C1 (amended): registration never fails on primary keys; the
    primary key of the registered schema is the last field marked
    [primary_key] in class-body order (none if there is no such field). *)
Theorem C1_primary_key_is_last (c : ClassDecl) :
  m_primary_key (model_fields c) = last (pk_fields (cls_dict c)).
Proof.
  rewrite m_primary_key_model_fields, collect_fields_pk.
  by destruct (last (pk_fields (cls_dict c))).
Qed.

(** C2 (counterexample): constructing main.py's [Post] without
    [created_at], a [DateTimeField(auto_now_add=True)], leaves
    [created_at] at [None]. *)
Lemma C2_auto_now_add_not_set :
  match model_init Post [("title", VStr "t"); ("author_id", VInt 1)] with
  | inr i => inst_dict i !! "created_at" = Some VNone
  | inl _ => False
  end.
Proof. vm_compute. reflexivity. Qed.

(** C2 (amended): [auto_now_add] has no effect at construction: a
    DateTime field with [auto_now_add = true] that is not supplied gets
    its declared default (Null unless a default is declared), and the
    construction fails with a validation error when the field is
    non-nullable with no default. *)
Theorem C2_auto_now_add_gets_default (c : ClassDecl) (kw : list (string * Value))
    (k : string) (f : Field) (an : bool) :
  In (k, f) (m_fields (model_fields c)) -> kind f = DateTimeField an true ->
  assoc_lookup k kw = None ->
  (forall i, model_init (model_fields c) kw = inr i ->
             inst_dict i !! k = Some (default_value f)) /\
  (nullable f = false -> default_value f = VNone ->
   exists r, model_init (model_fields c) kw = inl (ValueError r)).
Proof.
  intros Hin Hk Hn. split.
  - intros i Hi. rewrite (model_init_stored c kw i k f Hin Hi).
    unfold stored_value, popped. by rewrite Hk, Hn.
  - intros Hnl Hd. apply (model_init_fail c kw k f Hin). intros d0.
    unfold popped, field_set. rewrite Hn, Hd, Hnl. eauto.
Qed.

(** C6: a non-nullable field rejects Null on every path, whatever its
    kind: [__set__] raises the not-nullable error, so does assigning
    the attribute on an instance, and a construction where the field
    receives Null (omitted with no default, or passed [None]) fails
    with a validation error, the not-nullable one when the fields
    declared before it accepted their values. *)
Theorem C6_not_nullable_rejects_none (c : ClassDecl) (k : string) (f : Field) :
  In (k, f) (m_fields (model_fields c)) -> nullable f = false ->
  (forall d, field_set f VNone d = inl (ValueError (CannotBeNone k))) /\
  (forall i, inst_model i = model_fields c ->
             instance_setattr i k VNone = inl (ValueError (CannotBeNone k))) /\
  (forall kw, popped k f kw = VNone ->
              exists r, model_init (model_fields c) kw = inl (ValueError r)) /\
  (forall kw pre post d kw1,
      m_fields (model_fields c) = pre ++ (k, f) :: post ->
      init_fields pre kw ∅ = inr (d, kw1) -> popped k f kw = VNone ->
      model_init (model_fields c) kw = inl (ValueError (CannotBeNone k))).
Proof.
  intros Hin Hnl.
  pose proof (model_fields_wf c) as Hwf.
  pose proof (wf_fields_attr _ _ _ Hwf Hin) as Ha.
  assert (Hset : forall d, field_set f VNone d = inl (ValueError (CannotBeNone k))).
  { intros d. unfold field_set. by rewrite Hnl, Ha. }
  split; [exact Hset|]. split; [|split].
  - intros i Hi. unfold instance_setattr. rewrite Hi.
    rewrite (assoc_lookup_In _ _ _ (proj1 Hwf) Hin). by rewrite Hset.
  - intros kw Hp. apply (model_init_fail c kw k f Hin). intros d0.
    rewrite Hp. eauto.
  - intros kw pre post d kw1 Hs Hpre Hp. apply model_init_error. rewrite Hs.
    rewrite init_fields_app, Hpre. simpl. rewrite kw_pop_eq.
    assert (Hk : k ∉ map fst pre).
    { destruct Hwf as [Hnd _]. rewrite Hs, map_app in Hnd. simpl in Hnd.
      apply NoDup_app in Hnd as (_ & Hdis & _). intros Hk.
      apply (Hdis k Hk). set_solver. }
    assert (Hp1 : popped k f kw1 = VNone).
    { unfold popped in *. by rewrite (init_fields_kw_lookup _ _ _ _ _ _ Hpre Hk). }
    by rewrite Hp1, Hset.
Qed.

(** C9: a boolean field stores the int [1] as [True] and [0] as [False],
    rejects any other int, and stores a bool unchanged; on mutation
    ([setattr]) and at construction alike. *)
Theorem C9_boolean_coercion (c : ClassDecl) (k : string) (f : Field) :
  In (k, f) (m_fields (model_fields c)) -> kind f = BooleanField ->
  (forall i, inst_model i = model_fields c ->
     instance_setattr i k (VInt 1) =
       inr (mkInstance (inst_model i) (<[k := VBool true]> (inst_dict i))) /\
     instance_setattr i k (VInt 0) =
       inr (mkInstance (inst_model i) (<[k := VBool false]> (inst_dict i))) /\
     (forall z, z <> 0 -> z <> 1 ->
        instance_setattr i k (VInt z) = inl (ValueError (MustBe01TrueFalse k))) /\
     (forall b, instance_setattr i k (VBool b) =
        inr (mkInstance (inst_model i) (<[k := VBool b]> (inst_dict i))))) /\
  (forall kw i, assoc_lookup k kw = Some (VInt 1) ->
     model_init (model_fields c) kw = inr i -> inst_dict i !! k = Some (VBool true)) /\
  (forall kw i, assoc_lookup k kw = Some (VInt 0) ->
     model_init (model_fields c) kw = inr i -> inst_dict i !! k = Some (VBool false)) /\
  (forall kw z, assoc_lookup k kw = Some (VInt z) -> z <> 0 -> z <> 1 ->
     exists r, model_init (model_fields c) kw = inl (ValueError r)) /\
  (forall kw i b, assoc_lookup k kw = Some (VBool b) ->
     model_init (model_fields c) kw = inr i -> inst_dict i !! k = Some (VBool b)).
Proof.
  intros Hin Hk.
  pose proof (model_fields_wf c) as Hwf.
  pose proof (wf_fields_attr _ _ _ Hwf Hin) as Ha.
  assert (Hrange : forall z d, z <> 0 -> z <> 1 ->
            field_set f (VInt z) d = inl (ValueError (MustBe01TrueFalse k))).
  { intros z d H0 H1. unfold field_set, validate. rewrite Hk, Ha. simpl.
    rewrite andb_false_r. simpl. rewrite bool_decide_false; [done|].
    intros Hz. apply list_elem_of_In in Hz. simpl in Hz. lia. }
  assert (Hstored : forall v, stored_value f v =
            if isinstance_int v then VBool (to_bool v) else v).
  { intros v. unfold stored_value. by rewrite Hk. }
  split; [|split; [|split; [|split]]].
  - intros i Hi. unfold instance_setattr. rewrite Hi.
    rewrite (assoc_lookup_In _ _ _ (proj1 Hwf) Hin), <- Hi.
    unfold field_set, validate. rewrite Hk, Ha. simpl.
    rewrite !andb_false_r. simpl. split; [|split; [|split]].
    + by rewrite Hstored.
    + by rewrite Hstored.
    + intros z H0 H1. rewrite bool_decide_false; [done|].
      intros Hz. apply list_elem_of_In in Hz. simpl in Hz. lia.
    + intros b. rewrite Hstored. by destruct b.
  - intros kw i Hl Hi. rewrite (model_init_stored c kw i k f Hin Hi).
    unfold popped. by rewrite Hl, Hstored.
  - intros kw i Hl Hi. rewrite (model_init_stored c kw i k f Hin Hi).
    unfold popped. by rewrite Hl, Hstored.
  - intros kw z Hl H0 H1. apply (model_init_fail c kw k f Hin). intros d0.
    unfold popped. rewrite Hl, Hrange by done. eauto.
  - intros kw i b Hl Hi. rewrite (model_init_stored c kw i k f Hin Hi).
    unfold popped. by rewrite Hl, Hstored.
Qed.

(** C10: constructing an instance with a keyword that names no declared
    field fails: once the declared fields have been processed, with a
    [TypeError] listing the unexpected keywords in the order given; if
    processing a declared field raised first, with that error. *)
Theorem C10_unexpected_keywords (m : Model) (kw : list (string * Value)) :
  NoDup (map fst kw) ->
  (exists k, In k (map fst kw) /\ key_in k (map fst (m_fields m)) = false) ->
  model_init m kw =
    inl (match init_fields (m_fields m) kw ∅ with
         | inl e => e
         | inr _ => TypeError (List.filter (fun k => negb (key_in k (map fst (m_fields m))))
                                           (map fst kw))
         end).
Proof.
  intros Hnd (k & Hk & Hn). unfold model_init.
  destruct (init_fields (m_fields m) kw ∅) as [e|[d rest]] eqn:E; [done|].
  pose proof (init_fields_rest _ _ _ _ _ Hnd E) as Hr.
  destruct rest as [|x rest].
  - exfalso. simpl in Hr.
    assert (Hin : In k (List.filter (fun k => negb (key_in k (map fst (m_fields m)))) (map fst kw))).
    { apply List.filter_In. split; [done|]. by rewrite Hn. }
    rewrite <- Hr in Hin. done.
  - by rewrite Hr.
Qed.

(** ** Persistence *)

Lemma dict_set_In_eq {A} a (x : A) l : In (a, x) (dict_set a x l).
Proof.
  induction l as [|[k' y] l IH]; simpl; [auto|].
  destruct (String.eqb_spec a k'); simpl; auto.
Qed.

Lemma dict_set_In_ne {A} a (x : A) l k y :
  k <> a -> In (k, y) l -> In (k, y) (dict_set a x l).
Proof.
  intros Hne. induction l as [|[k' z] l IH]; simpl; [done|].
  intros Hin. destruct (String.eqb_spec a k') as [<-|Hne']; simpl.
  - destruct Hin as [[= -> ->]|Hin]; [done|auto].
  - destruct Hin as [Heq|Hin]; auto.
Qed.

Lemma collect_fields_pk_In attrs fs pk p :
  NoDup (map fst attrs) ->
  (forall p, pk = Some p -> In (attr_name p, p) fs /\ attr_name p ∉ map fst attrs) ->
  (collect_fields attrs fs pk).2 = Some p ->
  In (attr_name p, p) (collect_fields attrs fs pk).1.
Proof.
  revert fs pk. induction attrs as [|[a at0] attrs IH]; intros fs pk Hnd Hinv; simpl.
  - intros ->. by destruct (Hinv p eq_refl).
  - simpl in Hnd. apply NoDup_cons in Hnd as [Hnin Hnd]. destruct at0 as [fd|].
    + apply IH; [done|]. intros p'.
      assert (Hkeep : In (attr_name p', p') fs -> attr_name p' ∉ a :: map fst attrs ->
                      In (attr_name p', p') (dict_set a (set_name a fd) fs) /\
                      attr_name p' ∉ map fst attrs).
      { intros Hin Hn. apply not_elem_of_cons in Hn as [Hne Hn].
        split; [by apply dict_set_In_ne|done]. }
      replace (primary_key (set_name a fd)) with (fd_primary_key fd) by reflexivity.
      destruct (fd_primary_key fd).
      * intros [= <-]. split; [apply dict_set_In_eq|done].
      * intros Hp. destruct (Hinv p' Hp). by apply Hkeep.
    + apply IH; [done|]. intros p' Hp. destruct (Hinv p' Hp) as [Hin Hn].
      split; [done|]. set_solver.
Qed.

Lemma model_fields_pk_In c pk :
  NoDup (map fst (cls_dict c)) -> m_primary_key (model_fields c) = Some pk ->
  In (attr_name pk, pk) (m_fields (model_fields c)).
Proof.
  intros Hnd Hpk. rewrite m_fields_model_fields.
  rewrite m_primary_key_model_fields in Hpk.
  apply collect_fields_pk_In; [done| |done]. discriminate.
Qed.

Lemma model_fields_pk_lookup c pk :
  NoDup (map fst (cls_dict c)) -> m_primary_key (model_fields c) = Some pk ->
  assoc_lookup (attr_name pk) (m_fields (model_fields c)) = Some pk.
Proof.
  intros Hnd Hpk. apply assoc_lookup_In; [apply model_fields_wf|].
  by apply model_fields_pk_In.
Qed.

Lemma In_insert_fields i f :
  In f (insert_fields i) <->
  In f (map snd (m_fields (inst_model i))) /\
  ~ (primary_key f = true /\ is_none (instance_get i f) = true).
Proof.
  unfold insert_fields. rewrite List.filter_In.
  destruct (primary_key f), (is_none (instance_get i f)); simpl; intuition congruence.
Qed.

Lemma pk_fields_primary attrs p : In p (pk_fields attrs) -> primary_key p = true.
Proof.
  induction attrs as [|[a [fd|]] attrs IH]; simpl; [done| |auto].
  destruct (fd_primary_key fd) eqn:E; simpl; [|auto].
  intros [<-|Hin]; [exact E|auto].
Qed.

Lemma model_fields_pk_primary c pk :
  m_primary_key (model_fields c) = Some pk -> primary_key pk = true.
Proof.
  rewrite m_primary_key_model_fields, collect_fields_pk.
  destruct (last (pk_fields (cls_dict c))) as [p|] eqn:Hl; [|done]. intros [= <-].
  apply (pk_fields_primary (cls_dict c)), list_elem_of_In.
  by apply last_Some_elem_of.
Qed.

(** C3 (counterexample): a [Tag] whose primary key [code] is a string
    field, saved with [code] still [None]: the INSERT is executed
    without the [code] column, then writing the storage-assigned
    identifier (an int) back into [code] raises a validation error. *)
Lemma C3_string_pk_writeback_fails :
  match model_init (model_fields tag_decl) [("label", VStr "x")] with
  | inr i => save (fun _ _ => 9%Z) i =
               (inl (ValueError (MustBeString "code")),
                [("INSERT INTO tags (label) VALUES (?)", [VStr "x"])])
  | inl _ => False
  end.
Proof. vm_compute. reflexivity. Qed.

(** C3 (amended): [save] inserts exactly when the schema has no primary
    key or the primary-key value is Null, and updates otherwise; the
    INSERT lists every field except a primary-key field whose value is
    Null; after such an insert the storage-assigned identifier is
    assigned to the primary-key field through its validating setter:
    an Integer or Float primary key stores it, a Text or DateTime primary
    key raises a validation error (the INSERT having been executed). *)
Theorem C3_save_insert_update (lastrowid : string -> list Value -> Z)
    (c : ClassDecl) (i : Instance) :
  NoDup (map fst (cls_dict c)) -> inst_model i = model_fields c ->
  let m := model_fields c in
  let rowid := lastrowid (insert_sql i) (map (instance_get i) (insert_fields i)) in
  (m_primary_key m = None -> save lastrowid i = insert lastrowid i) /\
  (forall pk, m_primary_key m = Some pk ->
     (is_none (instance_get i pk) = true -> save lastrowid i = insert lastrowid i) /\
     (is_none (instance_get i pk) = false -> save lastrowid i = update i)) /\
  snd (insert lastrowid i) = [(insert_sql i, map (instance_get i) (insert_fields i))] /\
  (forall f, In f (insert_fields i) <->
     In f (map snd (m_fields m)) /\ ~ (primary_key f = true /\ is_none (instance_get i f) = true)) /\
  (forall pk, m_primary_key m = Some pk -> is_none (instance_get i pk) = true ->
     ~ In pk (insert_fields i) /\
     fst (save lastrowid i) = instance_setattr i (attr_name pk) (VInt rowid) /\
     ((kind pk = IntegerField \/ kind pk = FloatField) ->
        fst (save lastrowid i) =
          inr (mkInstance m (<[attr_name pk := VInt rowid]> (inst_dict i)))) /\
     ((exists n, kind pk = StringField n) \/ (exists a b, kind pk = DateTimeField a b) ->
        exists r, fst (save lastrowid i) = inl (ValueError r))).
Proof.
  intros Hnd Hm. cbv zeta. unfold save. rewrite Hm.
  split; [intros ->; reflexivity|]. split.
  { intros pk ->. split; intros ->; reflexivity. }
  split; [reflexivity|]. split.
  { intros f. rewrite In_insert_fields, Hm. reflexivity. }
  intros pk Hpk Hnone. rewrite Hpk, Hnone.
  set (rowid := lastrowid (insert_sql i) (map (instance_get i) (insert_fields i))).
  assert (Hins : fst (insert lastrowid i) = instance_setattr i (attr_name pk) (VInt rowid)).
  { unfold insert. simpl. rewrite Hm, Hpk, Hnone. reflexivity. }
  assert (Hlk : assoc_lookup (attr_name pk) (m_fields (inst_model i)) = Some pk).
  { rewrite Hm. by apply model_fields_pk_lookup. }
  split; [|split; [exact Hins|split]].
  - rewrite In_insert_fields. intros [_ Hn]. apply Hn. split; [|done].
    by apply (model_fields_pk_primary c).
  - intros Hk. rewrite Hins. unfold instance_setattr. rewrite Hlk.
    unfold field_set, validate, stored_value.
    destruct Hk as [Hk|Hk]; rewrite Hk; simpl; rewrite andb_false_r; simpl; by rewrite Hm.
  - intros Hk. rewrite Hins. unfold instance_setattr. rewrite Hlk.
    unfold field_set, validate.
    destruct Hk as [[n Hk]|(a & b & Hk)]; rewrite Hk; simpl; rewrite andb_false_r; simpl; eauto.
Qed.

(** C8 (counterexample): deleting an [Account] whose primary key is
    declared [nullable=False] executes the DELETE, then resetting the key
    to [None] raises the not-nullable error. *)
Lemma C8_non_nullable_pk_reset_fails :
  match model_init (model_fields account_decl) [("id", VInt 5)] with
  | inr i => delete i =
               (inl (ValueError (CannotBeNone "id")),
                [("DELETE FROM accounts WHERE id = ?", [VInt 5])])
  | inl _ => False
  end.
Proof. vm_compute. reflexivity. Qed.

(** C8 (amended): without a primary key, [delete] raises before any SQL
    is executed; with one, it executes
    [DELETE FROM <table> WHERE <pk column> = ?] bound to the key value,
    then resets the key to Null through its validating setter: a
    nullable primary key becomes Null, a non-nullable one raises the
    not-nullable error. *)
Theorem C8_delete (c : ClassDecl) (i : Instance) :
  NoDup (map fst (cls_dict c)) -> inst_model i = model_fields c ->
  let m := model_fields c in
  (m_primary_key m = None ->
     delete i = (inl (ValueError (HasNoPrimaryKey (cls_name c))), [])) /\
  (forall pk, m_primary_key m = Some pk ->
     snd (delete i) = [("DELETE FROM " +:+ m_table m +:+ " WHERE " +:+ name pk +:+ " = ?",
                        [instance_get i pk])] /\
     (nullable pk = true ->
        fst (delete i) = inr (mkInstance m (<[attr_name pk := VNone]> (inst_dict i)))) /\
     (nullable pk = false ->
        fst (delete i) = inl (ValueError (CannotBeNone (attr_name pk))))).
Proof.
  intros Hnd Hm. cbv zeta. unfold delete. rewrite Hm. split.
  { intros ->. simpl. unfold model_fields. destruct (collect_fields (cls_dict c) [] None). reflexivity. }
  intros pk Hpk. rewrite Hpk. split; [reflexivity|].
  assert (Hlk : assoc_lookup (attr_name pk) (m_fields (inst_model i)) = Some pk).
  { rewrite Hm. by apply model_fields_pk_lookup. }
  unfold instance_setattr. rewrite Hlk. unfold field_set.
  split; intros Hn; rewrite Hn; simpl; [|reflexivity].
  unfold validate, stored_value. rewrite Hm. destruct (kind pk); reflexivity.
Qed.

(** ** The query heap *)

Lemma bind_ok {A B} (m : M A) (k : A -> M B) σ x σ' :
  m σ = (inr x, σ') -> (m ≫= k) σ = k x σ'.
Proof. intros H. unfold mbind, M_bind. by rewrite H. Qed.

Lemma bind_err {A B} (m : M A) (k : A -> M B) σ e σ' :
  m σ = (inl e, σ') -> (m ≫= k) σ = (inl e, σ').
Proof. intros H. unfold mbind, M_bind. by rewrite H. Qed.

Ltac heap_simpl :=
  repeat first [ rewrite lookup_insert_eq | rewrite lookup_insert_ne by lia ].

Ltac heap_unfold :=
  unfold mbind, M_bind, mret, M_ret, modify_query, query_new, read_query, read_strs,
    read_vals, write_query, write_strs, write_vals, alloc_query, alloc_strs, alloc_vals.

Lemma clone_spec σ r q fl pl :
  s_queries σ !! r = Some q -> s_strs σ !! q_filters q = Some fl ->
  s_vals σ !! q_filter_params q = Some pl ->
  (r < s_next σ)%nat -> (q_filters q < s_next σ)%nat -> (q_filter_params q < s_next σ)%nat ->
  exists σ', clone r σ = (inr (2 + s_next σ)%nat, σ') /\
    s_next σ' = (5 + s_next σ)%nat /\ agree_below (s_next σ) σ σ' /\
    s_queries σ' !! (2 + s_next σ)%nat =
      Some (mkQuery (model_class q) (3 + s_next σ) (4 + s_next σ)
                    (q_order_by q) (q_limit q) (q_offset q)) /\
    s_strs σ' !! (3 + s_next σ)%nat = Some fl /\ s_vals σ' !! (4 + s_next σ)%nat = Some pl.
Proof.
  intros Hq Hf Hp Hr H1 H2. eexists. split.
  { unfold clone.
    repeat (progress (heap_unfold; cbn; heap_simpl; rewrite ?Hq, ?Hf, ?Hp)).
    reflexivity. }
  cbn. split; [reflexivity|]. split.
  { intros l Hl. cbn. heap_simpl. done. }
  heap_simpl. done.
Qed.

Lemma qview_frame n σ σ' r :
  live σ r -> s_next σ = n -> agree_below n σ σ' -> (n <= s_next σ')%nat ->
  qview σ' r = qview σ r /\ live σ' r.
Proof.
  intros Hl <- Hag Hle. unfold live in *.
  destruct (s_queries σ !! r) as [q|] eqn:Hq; [|done].
  destruct Hl as (Hr & Hf & Hp & Hv).
  destruct (Hag r Hr) as (E1 & _ & _).
  destruct (Hag _ Hf) as (_ & E2 & _). destruct (Hag _ Hp) as (_ & _ & E3).
  assert (Hqv : qview σ' r = qview σ r).
  { unfold qview. rewrite E1, Hq, E2, E3. reflexivity. }
  rewrite E1, Hq, Hqv. split; [done|]. repeat split; [lia..|done].
Qed.

Lemma filter_by_loop_spec m r' q' kw : forall fl pl σ1,
  s_queries σ1 !! r' = Some q' -> s_strs σ1 !! q_filters q' = Some fl ->
  s_vals σ1 !! q_filter_params q' = Some pl ->
  match resolve_filters m kw with
  | Some (cs, ps) =>
      filter_by_loop m r' kw σ1 =
        (inr tt, {| s_queries := s_queries σ1;
                    s_strs := <[q_filters q' := fl ++ cs]> (s_strs σ1);
                    s_vals := <[q_filter_params q' := pl ++ ps]> (s_vals σ1);
                    s_next := s_next σ1 |})
  | None => exists e σ2, filter_by_loop m r' kw σ1 = (inl e, σ2) /\
                         frame_except (q_filters q') (q_filter_params q') σ1 σ2
  end.
Proof.
  induction kw as [|[attr value] rest IH]; intros fl pl σ1 Hq Hf Hp; cbn.
  - rewrite !app_nil_r. destruct σ1 as [Q S V N]; cbn in *.
    rewrite !insert_id by done. reflexivity.
  - destruct (assoc_lookup attr (m_fields m)) as [f|] eqn:Ha.
    + unfold extend_filters, append_param.
      heap_unfold. repeat (progress (cbn; heap_simpl; rewrite ?Hq, ?Hf, ?Hp)).
      set (σ2 := {| s_queries := s_queries σ1;
                    s_strs := <[q_filters q':=fl ++ [name f +:+ " = ?"]]> (s_strs σ1);
                    s_vals := <[q_filter_params q':=pl ++ [value]]> (s_vals σ1);
                    s_next := s_next σ1 |}).
      specialize (IH (fl ++ [name f +:+ " = ?"]) (pl ++ [value]) σ2 Hq
                    (lookup_insert_eq _ _ _) (lookup_insert_eq _ _ _)).
      destruct (resolve_filters m rest) as [[cs ps]|].
      * rewrite IH. cbn. rewrite !insert_insert_eq, <- !app_assoc. reflexivity.
      * destruct IH as (e & σ3 & He & Hq3 & Hn3 & Hs3 & Hv3). rewrite He.
        exists e, σ3. split; [done|]. repeat split; [done|done| |].
        -- intros l Hl. rewrite Hs3 by done. cbn. by rewrite lookup_insert_ne by congruence.
        -- intros l Hl. rewrite Hv3 by done. cbn. by rewrite lookup_insert_ne by congruence.
    + eexists _, σ1. split; [reflexivity|]. repeat split; done.
Qed.

Lemma view_of σ r q fl pl :
  s_queries σ !! r = Some q -> s_strs σ !! q_filters q = Some fl ->
  s_vals σ !! q_filter_params q = Some pl ->
  (r < s_next σ)%nat -> (q_filters q < s_next σ)%nat -> (q_filter_params q < s_next σ)%nat ->
  live σ r /\
  qview σ r = Some (mkView (model_class q) fl pl (q_order_by q) (q_limit q) (q_offset q)).
Proof.
  intros Hq Hf Hp H1 H2 H3.
  assert (Hv : qview σ r = Some (mkView (model_class q) fl pl (q_order_by q) (q_limit q) (q_offset q))).
  { unfold qview. by rewrite Hq, Hf, Hp. }
  unfold live. rewrite Hq, Hv. repeat split; [lia..|done].
Qed.

Lemma view_intro σ r q v :
  s_queries σ !! r = Some q -> s_strs σ !! q_filters q = Some (v_filters v) ->
  s_vals σ !! q_filter_params q = Some (v_params v) ->
  model_class q = v_model v -> q_order_by q = v_order v -> q_limit q = v_limit v ->
  q_offset q = v_offset v ->
  (r < s_next σ)%nat -> (q_filters q < s_next σ)%nat -> (q_filter_params q < s_next σ)%nat ->
  live σ r /\ qview σ r = Some v.
Proof.
  intros Hq Hf Hp E1 E2 E3 E4 H1 H2 H3.
  destruct (view_of σ r q _ _ Hq Hf Hp H1 H2 H3) as [? ->].
  split; [done|]. destruct v; cbn in *; subst; reflexivity.
Qed.

Lemma clone_view σ r v :
  live σ r -> qview σ r = Some v ->
  exists σ1, clone r σ = (inr (S (S (s_next σ))), σ1) /\
    s_next σ1 = S (S (S (S (S (s_next σ))))) /\ agree_below (s_next σ) σ σ1 /\
    s_queries σ1 !! S (S (s_next σ)) =
      Some (mkQuery (v_model v) (S (S (S (s_next σ)))) (S (S (S (S (s_next σ)))))
                    (v_order v) (v_limit v) (v_offset v)) /\
    s_strs σ1 !! S (S (S (s_next σ))) = Some (v_filters v) /\
    s_vals σ1 !! S (S (S (S (s_next σ)))) = Some (v_params v) /\
    (r < s_next σ)%nat.
Proof.
  intros Hl Hv. unfold live in Hl. unfold qview in Hv.
  destruct (s_queries σ !! r) as [q|] eqn:Hq; [|done].
  destruct Hl as (Hr & Hf & Hp & _).
  destruct (s_strs σ !! q_filters q) as [fl|] eqn:Hfl; [|done].
  destruct (s_vals σ !! q_filter_params q) as [pl|] eqn:Hpl; [|done].
  injection Hv as <-.
  destruct (clone_spec σ r q fl pl Hq Hfl Hpl Hr Hf Hp) as (σ1 & Hc & Hn & Hag & Hq1 & Hf1 & Hp1).
  exists σ1. cbn in Hc, Hn, Hq1, Hf1, Hp1. cbn.
  split; [exact Hc|]. split; [exact Hn|]. split; [exact Hag|]. repeat split; assumption.
Qed.

(** Running a builder from the clone on: the original stays as it was. *)
Ltac builder_frame Hl Hag1 Hn1 :=
  match goal with
  | |- qview ?σ2 ?r = Some _ /\ live ?σ2 ?r /\ _ =>
      let σ0 := match type of Hl with live ?σ0 _ => σ0 end in
      let H := fresh in
      assert (H : agree_below (s_next σ0) σ0 σ2)
        by (let l := fresh in let Hl0 := fresh in
            intros l Hl0; cbn; heap_simpl; apply (Hag1 l Hl0));
      destruct (qview_frame _ _ σ2 r Hl eq_refl H) as [-> ?];
        [cbn; rewrite Hn1; lia|];
      split; [done|]; split; [done|]
  end.

(** The new query [S (S n)], in the final heap. *)
Ltac builder_fresh Hq1 Hf1 Hp1 Hn1 Hr :=
  eexists; split; [reflexivity|]; split; [lia|];
  refine (view_intro _ _ _ _ _ _ _ _ _ _ _ _ _ _);
    [cbn; heap_simpl; rewrite ?Hq1; reflexivity|..];
  cbn; heap_simpl; rewrite ?Hf1, ?Hp1, ?Hn1; first [reflexivity | lia].

Lemma filter_post σ r v conds :
  live σ r -> qview σ r = Some v ->
  builder_post σ r v (filter r conds)
    (Some (mkView (v_model v) (v_filters v ++ conds) (v_params v)
                  (v_order v) (v_limit v) (v_offset v))).
Proof.
  intros Hl Hv.
  destruct (clone_view σ r v Hl Hv) as (σ1 & Hc & Hn1 & Hag1 & Hq1 & Hf1 & Hp1 & Hr).
  eassert (Hrun : filter r conds σ = (inr _, _)).
  { unfold filter. rewrite (bind_ok _ _ _ _ _ Hc). cbv beta.
    unfold extend_filters. heap_unfold.
    repeat (progress (cbn; heap_simpl; rewrite ?Hq1, ?Hf1)). reflexivity. }
  unfold builder_post. rewrite Hrun. cbv iota beta.
  builder_frame Hl Hag1 Hn1.
  builder_fresh Hq1 Hf1 Hp1 Hn1 Hr.
Qed.

Lemma limit_post σ r v k :
  live σ r -> qview σ r = Some v ->
  builder_post σ r v (limit r k)
    (Some (mkView (v_model v) (v_filters v) (v_params v) (v_order v) (Some k) (v_offset v))).
Proof.
  intros Hl Hv.
  destruct (clone_view σ r v Hl Hv) as (σ1 & Hc & Hn1 & Hag1 & Hq1 & Hf1 & Hp1 & Hr).
  eassert (Hrun : limit r k σ = (inr _, _)).
  { unfold limit. rewrite (bind_ok _ _ _ _ _ Hc). cbv beta. 
    repeat (progress (heap_unfold; cbn; heap_simpl; rewrite ?Hq1)). reflexivity. }
  unfold builder_post. rewrite Hrun. cbv iota beta.
  builder_frame Hl Hag1 Hn1.
  builder_fresh Hq1 Hf1 Hp1 Hn1 Hr.
Qed.

Lemma offset_post σ r v k :
  live σ r -> qview σ r = Some v ->
  builder_post σ r v (offset r k)
    (Some (mkView (v_model v) (v_filters v) (v_params v) (v_order v) (v_limit v) (Some k))).
Proof.
  intros Hl Hv.
  destruct (clone_view σ r v Hl Hv) as (σ1 & Hc & Hn1 & Hag1 & Hq1 & Hf1 & Hp1 & Hr).
  eassert (Hrun : offset r k σ = (inr _, _)).
  { unfold offset. rewrite (bind_ok _ _ _ _ _ Hc). cbv beta. 
    repeat (progress (heap_unfold; cbn; heap_simpl; rewrite ?Hq1)). reflexivity. }
  unfold builder_post. rewrite Hrun. cbv iota beta.
  builder_frame Hl Hag1 Hn1.
  builder_fresh Hq1 Hf1 Hp1 Hn1 Hr.
Qed.

Lemma qview_query σ r v :
  qview σ r = Some v -> exists q, s_queries σ !! r = Some q /\ model_class q = v_model v.
Proof.
  unfold qview. destruct (s_queries σ !! r) as [q|]; [|done].
  destruct (s_strs σ !! q_filters q), (s_vals σ !! q_filter_params q); try done.
  intros [= <-]. by exists q.
Qed.

Lemma read_query_ok σ r q :
  s_queries σ !! r = Some q -> read_query r σ = (inr q, σ).
Proof. intros Hq. unfold read_query. by rewrite Hq. Qed.

Lemma order_by_post σ r v fname asc :
  live σ r -> qview σ r = Some v ->
  builder_post σ r v (order_by r fname asc)
    (match assoc_lookup fname (m_fields (v_model v)) with
     | Some f => Some (mkView (v_model v) (v_filters v) (v_params v)
                         (Some (name f +:+ " " +:+ if asc then "ASC" else "DESC"))
                         (v_limit v) (v_offset v))
     | None => None
     end).
Proof.
  intros Hl Hv.
  destruct (qview_query σ r v Hv) as (q & Hq & Emc).
  destruct (clone_view σ r v Hl Hv) as (σ1 & Hc & Hn1 & Hag1 & Hq1 & Hf1 & Hp1 & Hr).
  assert (Hrd : read_query r σ1 = (inr q, σ1)).
  { apply read_query_ok. rewrite (proj1 (Hag1 r Hr)). exact Hq. }
  unfold builder_post, order_by. rewrite (bind_ok _ _ _ _ _ Hc). cbv beta.
  rewrite (bind_ok _ _ _ _ _ Hrd). cbv beta. rewrite Emc.
  destruct (assoc_lookup fname (m_fields (v_model v))) as [f|].
  - eassert (Hrun : (modify_query (S (S (s_next σ)))
                       (set_order_by (Some (name f +:+ " " +:+ (if asc then "ASC" else "DESC"))));;
                     mret (S (S (s_next σ)))) σ1 = (inr _, _)).
    { repeat (progress (heap_unfold; cbn; heap_simpl; rewrite ?Hq1)). reflexivity. }
    rewrite Hrun. cbv iota beta.
    builder_frame Hl Hag1 Hn1.
    builder_fresh Hq1 Hf1 Hp1 Hn1 Hr.
  - cbv [raise]. cbv iota beta.
    builder_frame Hl Hag1 Hn1. by eexists.
Qed.

Lemma filter_by_post σ r v kw :
  live σ r -> qview σ r = Some v ->
  builder_post σ r v (filter_by r kw)
    (match resolve_filters (v_model v) kw with
     | Some (cs, ps) => Some (mkView (v_model v) (v_filters v ++ cs) (v_params v ++ ps)
                                     (v_order v) (v_limit v) (v_offset v))
     | None => None
     end).
Proof.
  intros Hl Hv.
  destruct (qview_query σ r v Hv) as (q & Hq & Emc).
  destruct (clone_view σ r v Hl Hv) as (σ1 & Hc & Hn1 & Hag1 & Hq1 & Hf1 & Hp1 & Hr).
  assert (Hrd : read_query r σ1 = (inr q, σ1)).
  { apply read_query_ok. rewrite (proj1 (Hag1 r Hr)). exact Hq. }
  unfold builder_post, filter_by. rewrite (bind_ok _ _ _ _ _ Hc). cbv beta.
  rewrite (bind_ok _ _ _ _ _ Hrd). cbv beta. rewrite Emc.
  pose proof (filter_by_loop_spec (v_model v) _ _ kw _ _ σ1 Hq1 Hf1 Hp1) as Hloop.
  cbn [q_filters q_filter_params] in Hloop.
  destruct (resolve_filters (v_model v) kw) as [[cs ps]|].
  - rewrite (bind_ok _ _ _ _ _ Hloop). cbv [mret M_ret]. cbv iota beta.
    builder_frame Hl Hag1 Hn1.
    builder_fresh Hq1 Hf1 Hp1 Hn1 Hr.
  - destruct Hloop as (e & σ2 & He & Hq2 & Hn2 & Hs2 & Hv2).
    rewrite (bind_err _ _ _ _ _ He). cbv iota beta.
    assert (Hag2 : agree_below (s_next σ) σ σ2).
    { intros l Hl0. destruct (Hag1 l Hl0) as (E1 & E2 & E3).
      rewrite Hq2, Hs2, Hv2 by lia. auto. }
    destruct (qview_frame _ _ σ2 r Hl eq_refl Hag2) as [-> ?]; [lia|].
    split; [done|]. split; [done|]. by eexists.
Qed.

(** ** Compiling a query *)

Lemma string_app_assoc (a b c : string) : (a +:+ b) +:+ c = a +:+ (b +:+ c).
Proof.
  induction a as [|x a IH]; [reflexivity|].
  change ((String x a +:+ b) +:+ c) with (String x ((a +:+ b) +:+ c)).
  change (String x a +:+ b +:+ c) with (String x (a +:+ b +:+ c)).
  by rewrite IH.
Qed.

Lemma concat_snoc sep (l : list string) x :
  l <> [] -> String.concat sep (l ++ [x]) = String.concat sep l +:+ sep +:+ x.
Proof.
  induction l as [|a l IH]; [done|]. intros _.
  destruct l as [|b l]; [done|].
  cbn [app].
  change (String.concat sep (a :: b :: l ++ [x]))
    with (a +:+ sep +:+ String.concat sep ((b :: l) ++ [x])).
  rewrite IH by done.
  change (String.concat sep (a :: b :: l)) with (a +:+ sep +:+ String.concat sep (b :: l)).
  by rewrite !string_app_assoc.
Qed.

Lemma build_sql_view σ r v :
  qview σ r = Some v -> v_order v <> Some "" ->
  build_sql r σ = (inr (compiled_select v, v_params v), σ).
Proof.
  unfold qview. destruct (s_queries σ !! r) as [q|] eqn:Hq; [|done].
  destruct (s_strs σ !! q_filters q) as [fl|] eqn:Hf; [|done].
  destruct (s_vals σ !! q_filter_params q) as [pl|] eqn:Hp; [|done].
  intros [= <-] Ho. cbn [v_order] in Ho.
  unfold build_sql, mbind, M_bind, mret, M_ret, read_query, read_strs, read_vals.
  cbv beta. rewrite Hq. cbv beta iota zeta. rewrite Hf. cbv beta iota.
  rewrite Hp. cbv beta iota.
  unfold compiled_select, select_clause, where_clauses, order_clauses, limit_clauses,
    offset_clauses.
  cbn [v_model v_filters v_params v_order v_limit v_offset].
  do 3 f_equal.
  destruct (q_order_by q) as [o|].
  - rewrite bool_decide_false by congruence.
    destruct fl, (q_limit q), (q_offset q); cbn [app]; reflexivity.
  - destruct fl, (q_limit q), (q_offset q); cbn [app]; reflexivity.
Qed.

Lemma modify_query_ok σ l q g :
  s_queries σ !! l = Some q ->
  modify_query l g σ =
    (inr tt, mkStore (<[l := g q]> (s_queries σ)) (s_strs σ) (s_vals σ) (s_next σ)).
Proof.
  intros Hq. unfold modify_query. by rewrite (bind_ok _ _ _ _ _ (read_query_ok _ _ _ Hq)).
Qed.

Lemma select_view m σ :
  exists σ1, select m σ = (inr (S (S (s_next σ))), σ1) /\
    live σ1 (S (S (s_next σ))) /\
    qview σ1 (S (S (s_next σ))) = Some (mkView m [] [] None None None).
Proof.
  eexists. split.
  { unfold select, query_new. heap_unfold. cbn. reflexivity. }
  refine (view_intro _ _ _ _ _ _ _ _ _ _ _ _ _ _);
    [cbn; heap_simpl; reflexivity|..];
  cbn; heap_simpl; first [reflexivity | lia].
Qed.

(** [first] on a query with view [v]: the statement of [v] limited to
    one row is sent with the parameters of [v]; a non-empty row is
    hydrated by [Model.__init__]. *)
Lemma first_view fetch_one σ r v :
  live σ r -> qview σ r = Some v -> v_order v <> Some "" ->
  fst (first fetch_one r σ) =
  match fetch_one (compiled_select (mkView (v_model v) (v_filters v) (v_params v) (v_order v)
                                           (Some 1) (v_offset v))) (v_params v) with
  | Some ((_ :: _) as row) =>
      match model_init (v_model v) (row_to_kwargs (v_model v) row) with
      | inl e => inl e
      | inr i => inr (Some i)
      end
  | _ => inr None
  end.
Proof.
  intros Hl Hv Ho.
  destruct (qview_query σ r v Hv) as (q & Hq & Emc).
  destruct (clone_view σ r v Hl Hv) as (σ1 & Hc & Hn1 & Hag1 & Hq1 & Hf1 & Hp1 & Hr).
  set (n := s_next σ) in *.
  pose proof (modify_query_ok σ1 _ _ (set_limit (Some 1)) Hq1) as Hm.
  set (σ2 := mkStore _ _ _ _) in Hm.
  assert (Hv2 : qview σ2 (S (S n)) =
                Some (mkView (v_model v) (v_filters v) (v_params v) (v_order v)
                             (Some 1) (v_offset v))).
  { apply (view_intro _ _ (set_limit (Some 1)
             (mkQuery (v_model v) (S (S (S n))) (S (S (S (S n))))
                      (v_order v) (v_limit v) (v_offset v)))); cbn; heap_simpl;
      rewrite ?Hf1, ?Hp1, ?Hn1; first [reflexivity | lia]. }
  pose proof (build_sql_view σ2 _ _ Hv2 Ho) as Hb.
  unfold first. rewrite (bind_ok _ _ _ _ _ Hc). cbv beta.
  rewrite (bind_ok _ _ _ _ _ Hm). cbv beta.
  rewrite (bind_ok _ _ _ _ _ Hb). cbv beta iota. cbn [v_params].
  destruct (fetch_one _ (v_params v)) as [[|[k x] row]|]; try reflexivity.
  assert (Hrd : read_query r σ2 = (inr q, σ2)).
  { apply read_query_ok. cbn. heap_simpl. rewrite (proj1 (Hag1 r Hr)). exact Hq. }
  assert (Hrm : row_to_model r ((k, x) :: row) σ2 =
    (model_init (v_model v) (row_to_kwargs (v_model v) ((k, x) :: row)), σ2)).
  { unfold row_to_model. rewrite (bind_ok _ _ _ _ _ Hrd). cbv beta.
    by rewrite Emc. }
  destruct (model_init _ _) as [e|i].
  - by rewrite (bind_err _ _ _ _ _ Hrm).
  - by rewrite (bind_ok _ _ _ _ _ Hrm).
Qed.

Lemma compiled_select_get m c id :
  compiled_select (mkView m [c] [id] None (Some 1) None) =
  select_clause m +:+ " WHERE " +:+ c +:+ " LIMIT 1".
Proof.
  unfold compiled_select, where_clauses, order_clauses, limit_clauses, offset_clauses.
  cbn [app v_model v_filters v_order v_limit v_offset].
  change (String.concat " " [select_clause m; "WHERE " +:+ String.concat " AND " [c];
                             "LIMIT " +:+ pretty 1%Z])
    with (select_clause m +:+ " " +:+ (("WHERE " +:+ c) +:+ " " +:+ "LIMIT " +:+ pretty 1%Z)).
  rewrite !string_app_assoc. reflexivity.
Qed.

(* ------------------------------------------------------------------ *)
(** ** Claims on queries *)

(** C4: each builder ([filter], [filter_by], [order_by], [limit],
    [offset]) called on a live query [r] with view [v] returns a new,
    distinct, live query whose view is [v] with the requested state
    appended ([filter], [filter_by]) or replaced ([order_by], [limit],
    [offset]), and leaves the filters, parameters, order, limit and
    offset of [r] as they were.  [filter_by] and [order_by] on a name
    that is not a field raise instead, and leave [r] unchanged too. *)
Theorem C4_builders_leave_original (σ : Store) (r : loc) (v : QueryView) :
  live σ r -> qview σ r = Some v ->
  (forall conds, builder_post σ r v (filter r conds)
     (Some (mkView (v_model v) (v_filters v ++ conds) (v_params v)
                   (v_order v) (v_limit v) (v_offset v)))) /\
  (forall kw, builder_post σ r v (filter_by r kw)
     (match resolve_filters (v_model v) kw with
      | Some (cs, ps) => Some (mkView (v_model v) (v_filters v ++ cs) (v_params v ++ ps)
                                      (v_order v) (v_limit v) (v_offset v))
      | None => None
      end)) /\
  (forall fname asc, builder_post σ r v (order_by r fname asc)
     (match assoc_lookup fname (m_fields (v_model v)) with
      | Some f => Some (mkView (v_model v) (v_filters v) (v_params v)
                          (Some (name f +:+ " " +:+ if asc then "ASC" else "DESC"))
                          (v_limit v) (v_offset v))
      | None => None
      end)) /\
  (forall k, builder_post σ r v (limit r k)
     (Some (mkView (v_model v) (v_filters v) (v_params v) (v_order v) (Some k) (v_offset v)))) /\
  (forall k, builder_post σ r v (offset r k)
     (Some (mkView (v_model v) (v_filters v) (v_params v) (v_order v) (v_limit v) (Some k)))).
Proof.
  intros Hl Hv. split; [|split; [|split; [|split]]]; intros.
  - by apply filter_post.
  - by apply filter_by_post.
  - by apply order_by_post.
  - by apply limit_post.
  - by apply offset_post.
Qed.

(** C5: [_build_sql] on a query with view [v] compiles [SELECT
    <columns> FROM <table>], then [WHERE] with the filters joined by
    [AND] (if any), [ORDER BY] (if an order is set), [LIMIT], then
    [OFFSET]; its parameters are the filter parameters, and the heap is
    unchanged.  When an offset is set but no limit, the statement ends
    with the sentinel [LIMIT -1] right before [OFFSET].  (An order is
    only ever set by [order_by], never to the empty string, which
    [_build_sql] would skip.) *)
Theorem C5_build_sql_clause_order (σ : Store) (r : loc) (v : QueryView) :
  qview σ r = Some v -> v_order v <> Some "" ->
  build_sql r σ = (inr (compiled_select v, v_params v), σ) /\
  forall k, v_limit v = None -> v_offset v = Some k ->
    build_sql r σ =
      (inr (String.concat " " ([select_clause (v_model v)] ++ where_clauses (v_filters v)
                               ++ order_clauses (v_order v))
            +:+ " LIMIT -1 OFFSET " +:+ pretty k, v_params v), σ).
Proof.
  intros Hv Ho. rewrite (build_sql_view σ r v Hv Ho). split; [done|].
  intros k Hlim Hoff. do 3 f_equal.
  unfold compiled_select, limit_clauses, offset_clauses. rewrite Hlim, Hoff.
  rewrite !app_assoc.
  rewrite (concat_snoc " " (_ ++ ["LIMIT -1"])) by (destruct (where_clauses _); discriminate).
  rewrite concat_snoc by (destruct (where_clauses _); discriminate).
  rewrite !string_app_assoc. reflexivity.
Qed.

(** C7: for a registered schema with a primary key [pk], [get(id)] is
    [select().filter_by(pk = id).first()]: it sends [SELECT <columns>
    FROM <table> WHERE <pk column> = ? LIMIT 1] with the parameter [id],
    returns [None] when no row comes back, and otherwise the instance
    [Model.__init__] builds from the row (raising if the row does not
    validate).  Without a primary key, [get] raises. *)
Theorem C7_get_is_select_filter_first (fetch_one : string -> list Value -> option Row)
    (c : ClassDecl) (id : Value) (σ : Store) :
  NoDup (map fst (cls_dict c)) ->
  match m_primary_key (model_fields c) with
  | None => get fetch_one (model_fields c) id σ =
              (inl (ValueError (HasNoPrimaryKey (model_name (model_fields c)))), σ)
  | Some pk =>
      get fetch_one (model_fields c) id σ = select_filter_first fetch_one (model_fields c) pk id σ /\
      fst (get fetch_one (model_fields c) id σ) =
        match fetch_one (select_clause (model_fields c) +:+ " WHERE " +:+ name pk
                         +:+ " = ? LIMIT 1") [id] with
        | Some ((_ :: _) as row) =>
            match model_init (model_fields c) (row_to_kwargs (model_fields c) row) with
            | inl e => inl e
            | inr i => inr (Some i)
            end
        | _ => inr None
        end
  end.
Proof.
  intros Hnd. set (m := model_fields c).
  destruct (m_primary_key m) as [pk|] eqn:Hpk.
  2:{ unfold get. by rewrite Hpk. }
  assert (Hget : get fetch_one m id σ = select_filter_first fetch_one m pk id σ).
  { unfold get. by rewrite Hpk. }
  split; [exact Hget|]. rewrite Hget.
  destruct (select_view m σ) as (σ1 & Hs & Hl1 & Hv1).
  pose proof (filter_by_post σ1 _ _ [(attr_name pk, id)] Hl1 Hv1) as Hpost.
  cbn [v_model resolve_filters] in Hpost.
  pose proof (model_fields_pk_lookup c pk Hnd Hpk) as Hlk. fold m in Hlk.
  rewrite Hlk in Hpost.
  unfold builder_post in Hpost.
  destruct (filter_by _ _ σ1) as [res σ2] eqn:Hf.
  destruct Hpost as (_ & _ & r' & -> & _ & Hl2 & Hv2).
  unfold select_filter_first.
  rewrite (bind_ok _ _ _ _ _ Hs). cbv beta. rewrite (bind_ok _ _ _ _ _ Hf). cbv beta.
  rewrite (first_view fetch_one σ2 r' _ Hl2 Hv2) by (cbn; discriminate).
  cbn [v_model v_filters v_params v_order v_offset app].
  rewrite compiled_select_get, string_app_assoc. reflexivity.
Qed.

(* ------------------------------------------------------------------ *)
(** ** The claims at concrete inputs *)

Ltac in_fields := vm_compute; repeat (first [left; reflexivity | right]).
Ltac nodup_names := apply (bool_decide_unpack _); vm_compute; exact I.

(** C2 at [Post] built from a title and an author only. *)
Lemma C2_auto_now_add_gets_default_witness :
  In ("created_at", set_name "created_at"
         (mkFieldDecl None false true VNone (DateTimeField false true))) (m_fields Post) /\
  kind (set_name "created_at" (mkFieldDecl None false true VNone (DateTimeField false true)))
    = DateTimeField false true /\
  assoc_lookup "created_at" [("title", VStr "Hi"); ("author_id", VInt 1)] = None /\
  (forall i, model_init Post [("title", VStr "Hi"); ("author_id", VInt 1)] = inr i ->
     inst_dict i !! "created_at" = Some VNone).
Proof.
  assert (H1 : In ("created_at", set_name "created_at"
         (mkFieldDecl None false true VNone (DateTimeField false true))) (m_fields Post))
    by in_fields.
  split; [exact H1|]. split; [reflexivity|]. split; [reflexivity|].
  exact (proj1 (C2_auto_now_add_gets_default post_decl
           [("title", VStr "Hi"); ("author_id", VInt 1)] "created_at" _ false H1 eq_refl eq_refl)).
Defined.

(** C6 at the non-nullable [title] of [Post]. *)
Lemma C6_not_nullable_rejects_none_witness :
  In ("title", set_name "title" (mkFieldDecl None false false VNone (StringField 200)))
     (m_fields Post) /\
  nullable (set_name "title" (mkFieldDecl None false false VNone (StringField 200))) = false /\
  (forall d, field_set (set_name "title" (mkFieldDecl None false false VNone (StringField 200)))
                       VNone d = inl (ValueError (CannotBeNone "title"))).
Proof.
  assert (H1 : In ("title", set_name "title" (mkFieldDecl None false false VNone (StringField 200)))
                  (m_fields Post)) by in_fields.
  split; [exact H1|]. split; [reflexivity|].
  exact (proj1 (C6_not_nullable_rejects_none post_decl "title" _ H1 eq_refl)).
Defined.

(** C9 at the boolean [active] of [TestModel]. *)
Lemma C9_boolean_coercion_witness :
  In ("active", set_name "active" (mkFieldDecl None false true (VBool true) BooleanField))
     (m_fields TestModel) /\
  kind (set_name "active" (mkFieldDecl None false true (VBool true) BooleanField)) = BooleanField /\
  (forall kw i, assoc_lookup "active" kw = Some (VInt 1) ->
     model_init TestModel kw = inr i -> inst_dict i !! "active" = Some (VBool true)).
Proof.
  assert (H1 : In ("active", set_name "active" (mkFieldDecl None false true (VBool true) BooleanField))
                  (m_fields TestModel)) by in_fields.
  split; [exact H1|]. split; [reflexivity|].
  exact (proj1 (proj2 (C9_boolean_coercion test_model_decl "active" _ H1 eq_refl))).
Defined.

(** C10 at [TestModel] with an unknown keyword [colour]. *)
Lemma C10_unexpected_keywords_witness :
  NoDup (map fst [("name", VStr "x"); ("colour", VStr "red")]) /\
  (exists k, In k (map fst [("name", VStr "x"); ("colour", VStr "red")]) /\
             key_in k (map fst (m_fields TestModel)) = false) /\
  model_init TestModel [("name", VStr "x"); ("colour", VStr "red")] = inl (TypeError ["colour"]).
Proof.
  assert (H1 : NoDup (map fst [("name", VStr "x"); ("colour", VStr "red")])) by nodup_names.
  assert (H2 : exists k, In k (map fst [("name", VStr "x"); ("colour", VStr "red")]) /\
                 key_in k (map fst (m_fields TestModel)) = false).
  { exists "colour". split; [right; left; reflexivity | reflexivity]. }
  split; [exact H1|]. split; [exact H2|].
  rewrite (C10_unexpected_keywords TestModel _ H1 H2). reflexivity.
Defined.

(** C3 at a [TestModel] instance whose [id] is unset. *)
Lemma C3_save_insert_update_witness :
  NoDup (map fst (cls_dict test_model_decl)) /\
  inst_model (mkInstance TestModel (<["name" := VStr "w"]> ∅)) = model_fields test_model_decl /\
  snd (insert (fun _ _ => 7%Z) (mkInstance TestModel (<["name" := VStr "w"]> ∅))) =
    [(insert_sql (mkInstance TestModel (<["name" := VStr "w"]> ∅)),
      map (instance_get (mkInstance TestModel (<["name" := VStr "w"]> ∅)))
          (insert_fields (mkInstance TestModel (<["name" := VStr "w"]> ∅))))].
Proof.
  assert (H1 : NoDup (map fst (cls_dict test_model_decl))) by nodup_names.
  split; [exact H1|]. split; [reflexivity|].
  exact (proj1 (proj2 (proj2 (C3_save_insert_update (fun _ _ => 7%Z) test_model_decl
           (mkInstance TestModel (<["name" := VStr "w"]> ∅)) H1 eq_refl)))).
Defined.

(** C8 at an [Account] whose (non-nullable) [id] is 5. *)
Lemma C8_delete_witness :
  NoDup (map fst (cls_dict account_decl)) /\
  inst_model (mkInstance (model_fields account_decl) (<["id" := VInt 5]> ∅)) =
    model_fields account_decl /\
  snd (delete (mkInstance (model_fields account_decl) (<["id" := VInt 5]> ∅))) =
    [("DELETE FROM accounts WHERE id = ?", [VInt 5])].
Proof.
  assert (H1 : NoDup (map fst (cls_dict account_decl))) by nodup_names.
  split; [exact H1|]. split; [reflexivity|].
  destruct (C8_delete account_decl (mkInstance (model_fields account_decl) (<["id" := VInt 5]> ∅))
              H1 eq_refl) as [_ H].
  rewrite (proj1 (H _ eq_refl)). reflexivity.
Defined.

(** C4 at the query [TestModel.select(db)], built in the empty heap. *)
Lemma C4_builders_leave_original_witness :
  live (snd (select TestModel empty_store)) 2 /\
  qview (snd (select TestModel empty_store)) 2 = Some (mkView TestModel [] [] None None None) /\
  builder_post (snd (select TestModel empty_store)) 2 (mkView TestModel [] [] None None None)
    (limit 2 10) (Some (mkView TestModel [] [] None (Some 10) None)).
Proof.
  assert (H1 : live (snd (select TestModel empty_store)) 2).
  { vm_compute. repeat split; [lia..|eexists; reflexivity]. }
  assert (H2 : qview (snd (select TestModel empty_store)) 2 =
               Some (mkView TestModel [] [] None None None)) by reflexivity.
  split; [exact H1|]. split; [exact H2|].
  exact (proj1 (proj2 (proj2 (proj2 (C4_builders_leave_original _ _ _ H1 H2)))) 10).
Defined.

(** C5 at [TestModel.select(db).order_by("name", False).offset(10)]. *)
Lemma C5_build_sql_clause_order_witness :
  qview (snd ((select TestModel ≫= fun q => order_by q "name" false ≫= fun q => offset q 10)
                empty_store)) 10 =
    Some (mkView TestModel [] [] (Some "name DESC") None (Some 10)) /\
  Some "name DESC" <> Some "" /\
  build_sql 10 (snd ((select TestModel ≫= fun q => order_by q "name" false ≫= fun q => offset q 10)
                       empty_store)) =
    (inr ("SELECT id, name, description, active, price FROM test_models ORDER BY name DESC LIMIT -1 OFFSET 10",
          []),
     snd ((select TestModel ≫= fun q => order_by q "name" false ≫= fun q => offset q 10)
            empty_store)).
Proof.
  assert (H1 : qview (snd ((select TestModel ≫= fun q => order_by q "name" false ≫= fun q => offset q 10)
                             empty_store)) 10 =
               Some (mkView TestModel [] [] (Some "name DESC") None (Some 10))) by reflexivity.
  assert (H2 : Some "name DESC" <> Some "") by discriminate.
  split; [exact H1|]. split; [exact H2|].
  rewrite (proj1 (C5_build_sql_clause_order _ _ _ H1 H2)). reflexivity.
Defined.

(** C7 at [TestModel.get(db, 3)], with a database that returns one row. *)
Lemma C7_get_is_select_filter_first_witness :
  NoDup (map fst (cls_dict test_model_decl)) /\
  fst (get (fun _ _ => Some [("id", VInt 3); ("name", VStr "n")]) TestModel (VInt 3) empty_store) =
    match model_init TestModel [("id", VInt 3); ("name", VStr "n")] with
    | inl e => inl e
    | inr i => inr (Some i)
    end.
Proof.
  assert (H1 : NoDup (map fst (cls_dict test_model_decl))) by nodup_names.
  split; [exact H1|].
  pose proof (C7_get_is_select_filter_first (fun _ _ => Some [("id", VInt 3); ("name", VStr "n")])
                test_model_decl (VInt 3) empty_store H1) as H.
  assert (Hpk : m_primary_key (model_fields test_model_decl) =
                Some (set_name "id" (mkFieldDecl None true true VNone IntegerField)))
    by reflexivity.
  rewrite Hpk in H. cbv beta iota in H. exact (proj2 H).
Defined.

(* ------------------------------------------------------------------ *)
(** * Further properties of the code *)

(** ** Descriptors *)

Lemma stored_value_idem f v : stored_value f (stored_value f v) = stored_value f v.
Proof. unfold stored_value. destruct (kind f); try reflexivity. destruct v; reflexivity. Qed.

Lemma is_none_stored f v : is_none (stored_value f v) = is_none v.
Proof. unfold stored_value. destruct (kind f); try reflexivity. destruct v; reflexivity. Qed.

Lemma validate_stored f v : validate f v = inr tt -> validate f (stored_value f v) = inr tt.
Proof.
  unfold validate, stored_value. destruct (kind f); try done.
  destruct v as [|b|z| | | |]; intros H; cbn in H |- *; try reflexivity; try discriminate.
  - destruct b; reflexivity.
  - destruct (negb (z =? 0)); reflexivity.
Qed.

Lemma field_set_stored f v d d' :
  field_set f v d = inr d' -> field_set f (stored_value f v) d = inr d'.
Proof.
  intros H. pose proof (field_set_ok _ _ _ _ H) as Hd. revert H.
  unfold field_set. rewrite is_none_stored, stored_value_idem.
  destruct (negb (nullable f) && is_none v); [discriminate|].
  destruct (validate f v) as [|[]] eqn:E; [discriminate|].
  rewrite (validate_stored _ _ E). done.
Qed.

Lemma field_set_dict_indep f v d d' d0 :
  field_set f v d = inr d' -> field_set f v d0 = inr (<[attr_name f := stored_value f v]> d0).
Proof.
  unfold field_set. destruct (negb (nullable f) && is_none v); [discriminate|].
  destruct (validate f v); [discriminate|reflexivity].
Qed.

(** ** Replaying an instance's values *)

Lemma init_fields_replay fs kw d0 d kw' :
  wf_fields fs -> init_fields fs kw d0 = inr (d, kw') ->
  init_fields fs (map (fun '(k, f) => (k, field_get f d)) fs) d0 = inr (d, []).
Proof.
  revert kw d0. induction fs as [|[k f] fs IH]; intros kw d0 [Hnd Hf] Hi.
  - simpl in Hi. injection Hi as <- <-. reflexivity.
  - simpl in Hnd. apply NoDup_cons in Hnd as [Hnin Hnd].
    apply Forall_cons in Hf as [Hk Hfs]; simpl in Hk.
    simpl in Hi. rewrite kw_pop_eq in Hi.
    destruct (field_set f (popped k f kw) d0) as [e|d1] eqn:E; [discriminate|].
    assert (Hd : d !! k = Some (stored_value f (popped k f kw))).
    { rewrite (init_fields_keep _ _ _ _ _ _ Hfs Hi Hnin).
      rewrite (field_set_ok _ _ _ _ E), Hk. apply lookup_insert_eq. }
    assert (Hg : field_get f d = stored_value f (popped k f kw)).
    { unfold field_get. by rewrite Hk, Hd. }
    cbn [map init_fields]. unfold kw_pop. cbn [assoc_lookup kw_remove].
    rewrite String.eqb_refl. rewrite Hg, (field_set_stored _ _ _ _ E).
    exact (IH _ _ (conj Hnd Hfs) Hi).
Qed.

Lemma model_init_replay m kw i :
  wf_fields (m_fields m) -> model_init m kw = inr i -> model_init m (to_dict i) = inr i.
Proof.
  intros Hwf H. unfold model_init in H.
  destruct (init_fields (m_fields m) kw ∅) as [e|[d [|x rest]]] eqn:E; try discriminate.
  injection H as <-. unfold model_init.
  replace (init_fields (m_fields m) (to_dict {| inst_model := m; inst_dict := d |}) ∅)
    with (@inr Exn (Dict * list (string * Value)) (d, [])); [reflexivity|].
  symmetry. exact (init_fields_replay _ _ _ _ _ Hwf E).
Qed.

Lemma model_init_model m kw i : model_init m kw = inr i -> inst_model i = m.
Proof.
  unfold model_init. destruct (init_fields _ _ _) as [e|[d [|x rest]]]; try discriminate.
  by intros [= <-].
Qed.

Lemma dict_set_fresh {A} k (x : A) l : k ∉ map fst l -> dict_set k x l = l ++ [(k, x)].
Proof.
  induction l as [|[k' y] l IH]; simpl; [done|].
  intros Hn. apply not_elem_of_cons in Hn as [Hne Hn].
  destruct (String.eqb_spec k k'); [done|]. by rewrite IH.
Qed.

Lemma row_fold_fresh (fs : list (string * Field)) (row : Row) (g : Field -> Value) acc :
  NoDup (map fst fs) -> (forall k, k ∈ map fst fs -> k ∉ map fst acc) ->
  (forall k f, In (k, f) fs -> assoc_lookup (name f) row = Some (g f)) ->
  fold_left (fun kw '(field_name, f) =>
               match assoc_lookup (name f) row with
               | Some v => dict_set field_name v kw
               | None => kw
               end) fs acc = acc ++ map (fun '(k, f) => (k, g f)) fs.
Proof.
  revert acc. induction fs as [|[k f] fs IH]; intros acc Hnd Hfr Hrow; simpl.
  - by rewrite app_nil_r.
  - simpl in Hnd. apply NoDup_cons in Hnd as [Hnin Hnd].
    rewrite (Hrow k f (or_introl eq_refl)).
    rewrite dict_set_fresh by (apply Hfr; left).
    rewrite IH; [by rewrite <- app_assoc|done| |].
    + intros k' Hk'. rewrite map_app. simpl.
      intros Hin. apply elem_of_app in Hin as [Hin|Hin].
      * apply (Hfr k'); [by right|done].
      * apply list_elem_of_singleton in Hin as ->. done.
    + intros k' f' Hin. apply (Hrow k' f'). by right.
Qed.

Lemma map_fst_columns (fs : list (string * Field)) (g : Field -> Value) :
  map fst (map (fun '(_, f) => (name f, g f)) fs) = map (fun kf => name kf.2) fs.
Proof. induction fs as [|[k f] fs IH]; simpl; congruence. Qed.

(** X1: assigning a field through its descriptor and reading it back
    gives the stored value; other attributes read as before; and
    assigning the value read back is accepted and changes nothing. *)
Theorem X1_field_set_get (f : Field) (v : Value) (d d' : Dict) :
  field_set f v d = inr d' ->
  field_get f d' = stored_value f v /\
  (forall g, attr_name g <> attr_name f -> field_get g d' = field_get g d) /\
  field_set f (field_get f d') d' = inr d'.
Proof.
  intros H. pose proof (field_set_ok _ _ _ _ H) as Hd.
  assert (Hget : field_get f d' = stored_value f v).
  { unfold field_get. by rewrite Hd, lookup_insert_eq. }
  split; [exact Hget|]. split.
  - intros g Hg. unfold field_get. rewrite Hd, lookup_insert_ne by congruence. reflexivity.
  - rewrite Hget. pose proof (field_set_stored _ _ _ _ H) as Hs.
    rewrite (field_set_dict_indep _ _ _ _ d' Hs), stored_value_idem, Hd, insert_insert_eq.
    reflexivity.
Qed.


(** X3: assigning [None] to a field of any class stores [None] when the
    field is nullable (a boolean field does not convert it) and raises
    the not-nullable error otherwise. *)
Theorem X3_none_assignment (f : Field) (d : Dict) :
  field_set f VNone d =
  if nullable f then inr (<[attr_name f := VNone]> d)
  else inl (ValueError (CannotBeNone (attr_name f))).
Proof.
  unfold field_set, validate, stored_value.
  destruct (nullable f), (kind f); reflexivity.
Qed.

(** X4: integer and float fields store ints and bools exactly as given
    (no conversion, unlike a boolean field); an integer field rejects a
    float, a float field stores it. *)
Theorem X4_numeric_fields_unconverted (f : Field) (d : Dict) :
  (kind f = IntegerField \/ kind f = FloatField ->
     (forall z, field_set f (VInt z) d = inr (<[attr_name f := VInt z]> d)) /\
     (forall b, field_set f (VBool b) d = inr (<[attr_name f := VBool b]> d))) /\
  (kind f = IntegerField ->
     forall x, field_set f (VFloat x) d = inl (ValueError (MustBeInteger (attr_name f)))) /\
  (kind f = FloatField ->
     forall x, field_set f (VFloat x) d = inr (<[attr_name f := VFloat x]> d)).
Proof.
  unfold field_set, validate, stored_value. split; [|split].
  - intros [Hk|Hk]; rewrite Hk; cbn; rewrite !andb_false_r; split; reflexivity.
  - intros Hk x. rewrite Hk. cbn. rewrite andb_false_r. reflexivity.
  - intros Hk x. rewrite Hk. cbn. rewrite andb_false_r. reflexivity.
Qed.

(** X5: [to_dict] round trip: building an instance of a registered class
    from the [to_dict()] of an instance gives back that instance. *)
Theorem X5_to_dict_roundtrip (c : ClassDecl) (kw : list (string * Value)) (i : Instance) :
  model_init (model_fields c) kw = inr i ->
  map fst (to_dict i) = map fst (m_fields (model_fields c)) /\
  model_init (model_fields c) (to_dict i) = inr i.
Proof.
  intros H. split.
  - unfold to_dict. rewrite (model_init_model _ _ _ H), map_map.
    apply map_ext. by intros [k f].
  - exact (model_init_replay _ _ _ (model_fields_wf c) H).
Qed.

(** X6: [_row_to_model] round trip: a row holding each field's current
    value under its column name (the column names being distinct) is
    turned by [_row_to_model] into the keyword arguments [to_dict()],
    and hydrates to an instance equal to the original. *)
Theorem X6_row_roundtrip (c : ClassDecl) (kw : list (string * Value)) (i : Instance) :
  NoDup (map (fun kf => name kf.2) (m_fields (model_fields c))) ->
  model_init (model_fields c) kw = inr i ->
  let row := map (fun '(_, f) => (name f, instance_get i f)) (m_fields (model_fields c)) in
  row_to_kwargs (model_fields c) row = to_dict i /\
  model_init (model_fields c) (row_to_kwargs (model_fields c) row) = inr i.
Proof.
  intros Hcols H row.
  assert (Hkw : row_to_kwargs (model_fields c) row = to_dict i).
  { unfold row_to_kwargs, to_dict. rewrite (model_init_model _ _ _ H).
    rewrite (row_fold_fresh _ row (instance_get i)).
    - reflexivity.
    - apply (proj1 (model_fields_wf c)).
    - intros k _ Hin. simpl in Hin. by apply not_elem_of_nil in Hin.
    - intros k f Hin. apply assoc_lookup_In.
      + unfold row. by rewrite map_fst_columns.
      + unfold row. apply in_map_iff. by exists (k, f). }
  split; [exact Hkw|]. rewrite Hkw.
  exact (model_init_replay _ _ _ (model_fields_wf c) H).
Qed.

(** ** The descriptor and round-trip properties at concrete inputs *)

(** X1 at the boolean [active] of [TestModel], assigned [1]. *)
Lemma X1_field_set_get_witness :
  field_set (set_name "active" (mkFieldDecl None false true (VBool true) BooleanField))
            (VInt 1) ∅ = inr (<["active" := VBool true]> ∅) /\
  field_get (set_name "active" (mkFieldDecl None false true (VBool true) BooleanField))
            (<["active" := VBool true]> ∅) = VBool true.
Proof.
  assert (H : field_set (set_name "active" (mkFieldDecl None false true (VBool true) BooleanField))
                        (VInt 1) ∅ = inr (<["active" := VBool true]> ∅)) by reflexivity.
  split; [exact H|]. exact (proj1 (X1_field_set_get _ _ _ _ H)).
Defined.


(** X5 at a [TestModel] built from a name and [active=0]. *)
Lemma X5_to_dict_roundtrip_witness :
  exists i, model_init TestModel [("name", VStr "n"); ("active", VInt 0)] = inr i /\
            model_init TestModel (to_dict i) = inr i.
Proof.
  destruct (model_init TestModel [("name", VStr "n"); ("active", VInt 0)]) as [e|i] eqn:E.
  - exfalso. vm_compute in E. discriminate.
  - exists i. split; [reflexivity|].
    exact (proj2 (X5_to_dict_roundtrip test_model_decl _ i E)).
Defined.

(** X6 at the same [TestModel] instance. *)
Lemma X6_row_roundtrip_witness :
  NoDup (map (fun kf => name kf.2) (m_fields TestModel)) /\
  exists i, model_init TestModel [("name", VStr "n"); ("active", VInt 0)] = inr i /\
    model_init TestModel
      (row_to_kwargs TestModel (map (fun '(_, f) => (name f, instance_get i f)) (m_fields TestModel)))
    = inr i.
Proof.
  assert (H1 : NoDup (map (fun kf => name kf.2) (m_fields TestModel))) by nodup_names.
  split; [exact H1|].
  destruct (model_init TestModel [("name", VStr "n"); ("active", VInt 0)]) as [e|i] eqn:E.
  - exfalso. vm_compute in E. discriminate.
  - exists i. split; [reflexivity|].
    exact (proj2 (X6_row_roundtrip test_model_decl _ i H1 E)).
Defined.

(** ** Saving, deleting and printing *)

Lemma model_name_model_fields c : model_name (model_fields c) = cls_name c.
Proof. unfold model_fields. by destruct (collect_fields _ _ _). Qed.

Lemma stored_none f : stored_value f VNone = VNone.
Proof. unfold stored_value. by destruct (kind f). Qed.

Lemma delete_result c i pk i' :
  NoDup (map fst (cls_dict c)) -> inst_model i = model_fields c ->
  m_primary_key (model_fields c) = Some pk -> fst (delete i) = inr i' ->
  i' = mkInstance (model_fields c) (<[attr_name pk := VNone]> (inst_dict i)).
Proof.
  intros Hnd Hm Hpk. unfold delete. rewrite Hm, Hpk. cbn [fst].
  unfold instance_setattr. rewrite Hm, (model_fields_pk_lookup c pk Hnd Hpk).
  destruct (field_set pk VNone (inst_dict i)) as [e|d] eqn:E; [discriminate|].
  intros [= <-]. apply field_set_ok in E. by rewrite E, stored_none.
Qed.

Lemma save_insert_pk (lastrowid : string -> list Value -> Z) c i pk :
  NoDup (map fst (cls_dict c)) -> inst_model i = model_fields c ->
  m_primary_key (model_fields c) = Some pk ->
  kind pk = IntegerField \/ kind pk = FloatField -> is_none (instance_get i pk) = true ->
  save lastrowid i =
    (inr (mkInstance (model_fields c)
            (<[attr_name pk := VInt (lastrowid (insert_sql i)
                                       (map (instance_get i) (insert_fields i)))]> (inst_dict i))),
     [(insert_sql i, map (instance_get i) (insert_fields i))]).
Proof.
  intros Hnd Hm Hpk Hk Hnone. unfold save. rewrite Hm, Hpk, Hnone.
  unfold insert. rewrite Hm, Hpk, Hnone. f_equal.
  unfold instance_setattr. rewrite Hm, (model_fields_pk_lookup c pk Hnd Hpk).
  unfold field_set, validate, stored_value.
  destruct Hk as [Hk|Hk]; rewrite Hk; simpl; rewrite andb_false_r; reflexivity.
Qed.

Lemma nonpk_attr_ne c pk f :
  NoDup (map fst (cls_dict c)) -> m_primary_key (model_fields c) = Some pk ->
  In f (map snd (m_fields (model_fields c))) -> primary_key f = false ->
  attr_name f <> attr_name pk.
Proof.
  intros Hnd Hpk Hin Hf Heq. apply in_map_iff in Hin as ([k f'] & Hs & Hin). cbn in Hs. subst f'.
  pose proof (wf_fields_attr _ _ _ (model_fields_wf c) Hin) as Hk. subst k.
  pose proof (assoc_lookup_In _ _ _ (proj1 (model_fields_wf c)) Hin) as H1.
  rewrite Heq, (model_fields_pk_lookup c pk Hnd Hpk) in H1. injection H1 as ->.
  rewrite (model_fields_pk_primary c f Hpk) in Hf. discriminate.
Qed.

Lemma instance_get_insert_ne m d a x f :
  attr_name f <> a -> instance_get (mkInstance m (<[a := x]> d)) f = field_get f d.
Proof. intros Hne. unfold instance_get, field_get. cbn. by rewrite lookup_insert_ne by congruence. Qed.

Lemma instance_get_insert_eq m d f x :
  instance_get (mkInstance m (<[attr_name f := x]> d)) f = x.
Proof. unfold instance_get, field_get. cbn. by rewrite lookup_insert_eq. Qed.

Lemma update_values_frame c pk m d x :
  NoDup (map fst (cls_dict c)) -> m_primary_key (model_fields c) = Some pk ->
  map (instance_get (mkInstance m (<[attr_name pk := x]> d)))
      (List.filter (fun f => negb (primary_key f)) (map snd (m_fields (model_fields c)))) =
  map (fun f => field_get f d)
      (List.filter (fun f => negb (primary_key f)) (map snd (m_fields (model_fields c)))).
Proof.
  intros Hnd Hpk. apply map_ext_in. intros f Hin.
  apply List.filter_In in Hin as [Hin Hf]. apply negb_true_iff in Hf.
  apply instance_get_insert_ne. exact (nonpk_attr_ne c pk f Hnd Hpk Hin Hf).
Qed.

(** X7: [__repr__] shows [<Name (unsaved)>] for a class without a primary
    key or an instance whose key is [None], in particular right after a
    successful [delete]; after [save] inserts an instance with an integer
    or float key that was [None], it shows [<Name key=id>] with the
    storage-assigned identifier. *)
Theorem X7_repr_save_delete (py_str : Value -> string)
    (lastrowid : string -> list Value -> Z) (c : ClassDecl) (i : Instance) :
  NoDup (map fst (cls_dict c)) -> inst_model i = model_fields c ->
  (m_primary_key (model_fields c) = None -> repr py_str i = "<" +:+ cls_name c +:+ " (unsaved)>") /\
  (forall pk, m_primary_key (model_fields c) = Some pk ->
     (is_none (instance_get i pk) = true -> repr py_str i = "<" +:+ cls_name c +:+ " (unsaved)>") /\
     ((kind pk = IntegerField \/ kind pk = FloatField) -> is_none (instance_get i pk) = true ->
        forall i', fst (save lastrowid i) = inr i' ->
        repr py_str i' =
          "<" +:+ cls_name c +:+ " " +:+ attr_name pk +:+ "="
          +:+ py_str (VInt (lastrowid (insert_sql i) (map (instance_get i) (insert_fields i))))
          +:+ ">") /\
     (forall i', fst (delete i) = inr i' -> repr py_str i' = "<" +:+ cls_name c +:+ " (unsaved)>")).
Proof.
  intros Hnd Hm. unfold repr. split.
  { intros Hpk. rewrite Hm, Hpk, model_name_model_fields. reflexivity. }
  intros pk Hpk. split; [|split].
  - intros Hn. rewrite Hm, Hpk, Hn, model_name_model_fields. reflexivity.
  - intros Hk Hn i'. rewrite (save_insert_pk lastrowid c i pk Hnd Hm Hpk Hk Hn).
    intros [= <-]. cbn [inst_model]. rewrite Hpk, instance_get_insert_eq, model_name_model_fields.
    reflexivity.
  - intros i' Hd. rewrite (delete_result c i pk i' Hnd Hm Hpk Hd). cbn [inst_model].
    rewrite Hpk, instance_get_insert_eq, model_name_model_fields. reflexivity.
Qed.

(** X8: saving twice: an instance whose integer or float primary key is
    [None] is inserted by the first [save] and gets the storage-assigned
    identifier; a second [save] of the result executes an UPDATE of the
    non-key fields, with their unchanged values, [WHERE] the key column
    equals that identifier (no second INSERT). *)
Theorem X8_save_twice (lastrowid : string -> list Value -> Z) (c : ClassDecl) (i : Instance)
    (pk : Field) :
  NoDup (map fst (cls_dict c)) -> inst_model i = model_fields c ->
  m_primary_key (model_fields c) = Some pk ->
  kind pk = IntegerField \/ kind pk = FloatField -> is_none (instance_get i pk) = true ->
  let m := model_fields c in
  let rowid := lastrowid (insert_sql i) (map (instance_get i) (insert_fields i)) in
  let i' := mkInstance m (<[attr_name pk := VInt rowid]> (inst_dict i)) in
  let update_fields := List.filter (fun f => negb (primary_key f)) (map snd (m_fields m)) in
  save lastrowid i = (inr i', [(insert_sql i, map (instance_get i) (insert_fields i))]) /\
  save lastrowid i' =
    (inr i', [("UPDATE " +:+ m_table m +:+ " SET "
               +:+ String.concat ", " (map (fun f => name f +:+ " = ?") update_fields)
               +:+ " WHERE " +:+ name pk +:+ " = ?",
               map (instance_get i) update_fields ++ [VInt rowid])]).
Proof.
  intros Hnd Hm Hpk Hk Hn. cbv zeta.
  split; [exact (save_insert_pk lastrowid c i pk Hnd Hm Hpk Hk Hn)|].
  unfold save, update. cbn [inst_model]. rewrite Hpk.
  rewrite instance_get_insert_eq. cbn [is_none].
  rewrite (update_values_frame c pk _ _ _ Hnd Hpk). reflexivity.
Qed.

(** X9: deleting then saving: after a successful [delete] the key reads
    [None] and every other field keeps its value, so a following [save]
    inserts the instance again as a new row, without the key column. *)
Theorem X9_delete_then_save (lastrowid : string -> list Value -> Z) (c : ClassDecl)
    (i i' : Instance) (pk : Field) :
  NoDup (map fst (cls_dict c)) -> inst_model i = model_fields c ->
  m_primary_key (model_fields c) = Some pk -> fst (delete i) = inr i' ->
  instance_get i' pk = VNone /\
  (forall g, attr_name g <> attr_name pk -> instance_get i' g = instance_get i g) /\
  save lastrowid i' = insert lastrowid i' /\ ~ In pk (insert_fields i').
Proof.
  intros Hnd Hm Hpk Hd. rewrite (delete_result c i pk i' Hnd Hm Hpk Hd).
  split; [apply instance_get_insert_eq|]. split.
  { intros g Hg. by apply instance_get_insert_ne. }
  split.
  - unfold save. cbn [inst_model]. rewrite Hpk, instance_get_insert_eq. reflexivity.
  - rewrite In_insert_fields. intros [_ Hn]. apply Hn. split.
    + exact (model_fields_pk_primary c pk Hpk).
    + by rewrite instance_get_insert_eq.
Qed.

(** ** Saving, deleting and printing at concrete inputs *)

(** X7 at a [TestModel] with only a name, saved with row id 7. *)
Lemma X7_repr_save_delete_witness :
  NoDup (map fst (cls_dict test_model_decl)) /\
  inst_model (mkInstance TestModel (<["name" := VStr "w"]> ∅)) = model_fields test_model_decl /\
  m_primary_key (model_fields test_model_decl) =
    Some (set_name "id" (mkFieldDecl None true true VNone IntegerField)) /\
  fst (save (fun _ _ => 7%Z) (mkInstance TestModel (<["name" := VStr "w"]> ∅))) =
    inr (mkInstance TestModel (<["id" := VInt 7]> (<["name" := VStr "w"]> ∅))) /\
  repr (fun _ => "7") (mkInstance TestModel (<["id" := VInt 7]> (<["name" := VStr "w"]> ∅))) =
    "<TestModel id=7>".
Proof.
  assert (H1 : NoDup (map fst (cls_dict test_model_decl))) by nodup_names.
  assert (Hpk : m_primary_key (model_fields test_model_decl) =
                Some (set_name "id" (mkFieldDecl None true true VNone IntegerField)))
    by reflexivity.
  assert (Hn : is_none (instance_get (mkInstance TestModel (<["name" := VStr "w"]> ∅))
                          (set_name "id" (mkFieldDecl None true true VNone IntegerField))) = true)
    by reflexivity.
  assert (Hs : fst (save (fun _ _ => 7%Z) (mkInstance TestModel (<["name" := VStr "w"]> ∅))) =
               inr (mkInstance TestModel (<["id" := VInt 7]> (<["name" := VStr "w"]> ∅))))
    by reflexivity.
  split; [exact H1|]. split; [reflexivity|]. split; [exact Hpk|]. split; [exact Hs|].
  rewrite (proj1 (proj2 (proj2 (X7_repr_save_delete (fun _ => "7") (fun _ _ => 7%Z)
             test_model_decl (mkInstance TestModel (<["name" := VStr "w"]> ∅)) H1 eq_refl) _ Hpk)) (or_introl eq_refl) Hn _ Hs).
  reflexivity.
Defined.

(** X8 at the same instance: the second [save] is an UPDATE of row 7. *)
Lemma X8_save_twice_witness :
  NoDup (map fst (cls_dict test_model_decl)) /\
  is_none (instance_get (mkInstance TestModel (<["name" := VStr "w"]> ∅))
                        (set_name "id" (mkFieldDecl None true true VNone IntegerField))) = true /\
  save (fun _ _ => 7%Z) (mkInstance TestModel (<["id" := VInt 7]> (<["name" := VStr "w"]> ∅))) =
    (inr (mkInstance TestModel (<["id" := VInt 7]> (<["name" := VStr "w"]> ∅))),
     [("UPDATE test_models SET name = ?, description = ?, active = ?, price = ? WHERE id = ?",
       [VStr "w"; VNone; VBool true; VFloat 0; VInt 7])]).
Proof.
  assert (H1 : NoDup (map fst (cls_dict test_model_decl))) by nodup_names.
  assert (Hpk : m_primary_key (model_fields test_model_decl) =
                Some (set_name "id" (mkFieldDecl None true true VNone IntegerField)))
    by reflexivity.
  assert (Hn : is_none (instance_get (mkInstance TestModel (<["name" := VStr "w"]> ∅))
                          (set_name "id" (mkFieldDecl None true true VNone IntegerField))) = true)
    by reflexivity.
  split; [exact H1|]. split; [exact Hn|].
  refine (eq_trans (proj2 (X8_save_twice (fun _ _ => 7%Z) test_model_decl
                             (mkInstance TestModel (<["name" := VStr "w"]> ∅)) _ H1 eq_refl Hpk
                             (or_introl eq_refl) Hn)) _).
  reflexivity.
Defined.

(** X9 at a [TestModel] with id 5, deleted then saved. *)
Lemma X9_delete_then_save_witness :
  NoDup (map fst (cls_dict test_model_decl)) /\
  fst (delete (mkInstance TestModel (<["id" := VInt 5]> (<["name" := VStr "w"]> ∅)))) =
    inr (mkInstance TestModel (<["id" := VNone]> (<["id" := VInt 5]> (<["name" := VStr "w"]> ∅)))) /\
  save (fun _ _ => 8%Z)
       (mkInstance TestModel (<["id" := VNone]> (<["id" := VInt 5]> (<["name" := VStr "w"]> ∅)))) =
  insert (fun _ _ => 8%Z)
       (mkInstance TestModel (<["id" := VNone]> (<["id" := VInt 5]> (<["name" := VStr "w"]> ∅)))).
Proof.
  assert (H1 : NoDup (map fst (cls_dict test_model_decl))) by nodup_names.
  assert (Hpk : m_primary_key (model_fields test_model_decl) =
                Some (set_name "id" (mkFieldDecl None true true VNone IntegerField)))
    by reflexivity.
  assert (Hd : fst (delete (mkInstance TestModel (<["id" := VInt 5]> (<["name" := VStr "w"]> ∅)))) =
    inr (mkInstance TestModel (<["id" := VNone]> (<["id" := VInt 5]> (<["name" := VStr "w"]> ∅)))))
    by reflexivity.
  split; [exact H1|]. split; [exact Hd|].
  exact (proj1 (proj2 (proj2 (X9_delete_then_save (fun _ _ => 8%Z) test_model_decl
                                (mkInstance TestModel (<["id" := VInt 5]> (<["name" := VStr "w"]> ∅)))
                                _ _ H1 eq_refl Hpk Hd)))).
Defined.

(** ** Terminal operations and chains of builders *)

Lemma heap_grows_refl σ : heap_grows σ σ.
Proof. split; [intros l _; done|lia]. Qed.

Lemma heap_grows_trans σ1 σ2 σ3 : heap_grows σ1 σ2 -> heap_grows σ2 σ3 -> heap_grows σ1 σ3.
Proof.
  intros [H12 N12] [H23 N23]. split; [|lia].
  intros l Hl. destruct (H12 l Hl) as (A1 & B1 & C1). destruct (H23 l ltac:(lia)) as (A2 & B2 & C2).
  rewrite A2, B2, C2. auto.
Qed.

Lemma heap_grows_view σ σ' r v :
  live σ r -> qview σ r = Some v -> heap_grows σ σ' -> qview σ' r = Some v /\ live σ' r.
Proof.
  intros Hl Hv [Hag Hn]. destruct (qview_frame _ σ σ' r Hl eq_refl Hag Hn) as [-> ?]. done.
Qed.

Lemma filter_grows σ r v conds :
  live σ r -> qview σ r = Some v -> heap_grows σ (snd (filter r conds σ)).
Proof.
  intros Hl Hv.
  destruct (clone_view σ r v Hl Hv) as (σ1 & Hc & Hn1 & Hag1 & Hq1 & Hf1 & Hp1 & Hr).
  eassert (Hrun : filter r conds σ = (inr _, _)).
  { unfold filter. rewrite (bind_ok _ _ _ _ _ Hc). cbv beta.
    unfold extend_filters. heap_unfold.
    repeat (progress (cbn; heap_simpl; rewrite ?Hq1, ?Hf1)). reflexivity. }
  rewrite Hrun. cbn [snd]. split; [intros l Hl0; cbn; heap_simpl; apply (Hag1 l Hl0)|].
  cbn. rewrite Hn1. lia.
Qed.

Lemma limit_grows σ r v k :
  live σ r -> qview σ r = Some v -> heap_grows σ (snd (limit r k σ)).
Proof.
  intros Hl Hv.
  destruct (clone_view σ r v Hl Hv) as (σ1 & Hc & Hn1 & Hag1 & Hq1 & Hf1 & Hp1 & Hr).
  eassert (Hrun : limit r k σ = (inr _, _)).
  { unfold limit. rewrite (bind_ok _ _ _ _ _ Hc). cbv beta.
    repeat (progress (heap_unfold; cbn; heap_simpl; rewrite ?Hq1)). reflexivity. }
  rewrite Hrun. cbn [snd]. split; [intros l Hl0; cbn; heap_simpl; apply (Hag1 l Hl0)|].
  cbn. rewrite Hn1. lia.
Qed.

Lemma offset_grows σ r v k :
  live σ r -> qview σ r = Some v -> heap_grows σ (snd (offset r k σ)).
Proof.
  intros Hl Hv.
  destruct (clone_view σ r v Hl Hv) as (σ1 & Hc & Hn1 & Hag1 & Hq1 & Hf1 & Hp1 & Hr).
  eassert (Hrun : offset r k σ = (inr _, _)).
  { unfold offset. rewrite (bind_ok _ _ _ _ _ Hc). cbv beta.
    repeat (progress (heap_unfold; cbn; heap_simpl; rewrite ?Hq1)). reflexivity. }
  rewrite Hrun. cbn [snd]. split; [intros l Hl0; cbn; heap_simpl; apply (Hag1 l Hl0)|].
  cbn. rewrite Hn1. lia.
Qed.

Lemma order_by_grows σ r v fname asc :
  live σ r -> qview σ r = Some v -> heap_grows σ (snd (order_by r fname asc σ)).
Proof.
  intros Hl Hv.
  destruct (qview_query σ r v Hv) as (q & Hq & Emc).
  destruct (clone_view σ r v Hl Hv) as (σ1 & Hc & Hn1 & Hag1 & Hq1 & Hf1 & Hp1 & Hr).
  assert (Hrd : read_query r σ1 = (inr q, σ1)).
  { apply read_query_ok. rewrite (proj1 (Hag1 r Hr)). exact Hq. }
  unfold order_by. rewrite (bind_ok _ _ _ _ _ Hc). cbv beta.
  rewrite (bind_ok _ _ _ _ _ Hrd). cbv beta. rewrite Emc.
  destruct (assoc_lookup fname (m_fields (v_model v))) as [f|].
  - eassert (Hrun : (modify_query (S (S (s_next σ)))
                       (set_order_by (Some (name f +:+ " " +:+ (if asc then "ASC" else "DESC"))));;
                     mret (S (S (s_next σ)))) σ1 = (inr _, _)).
    { repeat (progress (heap_unfold; cbn; heap_simpl; rewrite ?Hq1)). reflexivity. }
    rewrite Hrun. cbn [snd]. split; [intros l Hl0; cbn; heap_simpl; apply (Hag1 l Hl0)|].
    cbn. rewrite Hn1. lia.
  - cbv [raise snd]. split; [exact Hag1|]. rewrite Hn1. lia.
Qed.

Lemma filter_by_grows σ r v kw :
  live σ r -> qview σ r = Some v -> heap_grows σ (snd (filter_by r kw σ)).
Proof.
  intros Hl Hv.
  destruct (qview_query σ r v Hv) as (q & Hq & Emc).
  destruct (clone_view σ r v Hl Hv) as (σ1 & Hc & Hn1 & Hag1 & Hq1 & Hf1 & Hp1 & Hr).
  assert (Hrd : read_query r σ1 = (inr q, σ1)).
  { apply read_query_ok. rewrite (proj1 (Hag1 r Hr)). exact Hq. }
  unfold filter_by. rewrite (bind_ok _ _ _ _ _ Hc). cbv beta.
  rewrite (bind_ok _ _ _ _ _ Hrd). cbv beta. rewrite Emc.
  pose proof (filter_by_loop_spec (v_model v) _ _ kw _ _ σ1 Hq1 Hf1 Hp1) as Hloop.
  cbn [q_filters q_filter_params] in Hloop.
  destruct (resolve_filters (v_model v) kw) as [[cs ps]|].
  - rewrite (bind_ok _ _ _ _ _ Hloop). cbv [mret M_ret snd].
    split; [intros l Hl0; cbn; heap_simpl; apply (Hag1 l Hl0)|]. cbn. rewrite Hn1. lia.
  - destruct Hloop as (e & σ2 & He & Hq2 & Hn2 & Hs2 & Hv2).
    rewrite (bind_err _ _ _ _ _ He). cbn [snd]. split; [|lia].
    intros l Hl0. destruct (Hag1 l Hl0) as (E1 & E2 & E3).
    rewrite Hq2, Hs2, Hv2 by lia. auto.
Qed.

Lemma run_call_spec σ r v c :
  live σ r -> qview σ r = Some v ->
  heap_grows σ (snd (run_call c r σ)) /\ builder_post σ r v (run_call c r) (call_view c v).
Proof.
  intros Hl Hv. destruct c; cbn [run_call call_view]; split.
  - by eapply filter_grows.
  - by apply filter_post.
  - by eapply filter_by_grows.
  - by apply filter_by_post.
  - by eapply order_by_grows.
  - by apply order_by_post.
  - by eapply limit_grows.
  - by apply limit_post.
  - by eapply offset_grows.
  - by apply offset_post.
Qed.

Lemma run_chain_spec cs : forall σ r v,
  live σ r -> qview σ r = Some v ->
  heap_grows σ (snd (run_chain cs r σ)) /\
  match chain_view cs v with
  | Some v' => exists r', fst (run_chain cs r σ) = inr r' /\
                 live (snd (run_chain cs r σ)) r' /\ qview (snd (run_chain cs r σ)) r' = Some v'
  | None => exists e, fst (run_chain cs r σ) = inl e
  end.
Proof.
  induction cs as [|c cs IH]; intros σ r v Hl Hv.
  - cbn. split; [apply heap_grows_refl|]. by exists r.
  - destruct (run_call_spec σ r v c Hl Hv) as [Hg Hpost].
    unfold builder_post in Hpost. cbn [run_chain chain_view].
    destruct (run_call c r σ) as [res σ1] eqn:E. cbn [snd] in Hg.
    destruct Hpost as (_ & _ & Hres).
    destruct (call_view c v) as [v1|].
    + destruct Hres as (r1 & -> & _ & Hl1 & Hv1).
      rewrite (bind_ok _ _ _ _ _ E).
      destruct (IH σ1 r1 v1 Hl1 Hv1) as [Hg1 Hc1].
      split; [exact (heap_grows_trans _ _ _ Hg Hg1)|exact Hc1].
    + destruct Hres as (e & ->). rewrite (bind_err _ _ _ _ _ E). cbn. split; [exact Hg|by exists e].
Qed.

Lemma count_view fetch_one σ r v :
  qview σ r = Some v ->
  count fetch_one r σ =
    (inr (match fetch_one (match v_filters v with
                           | [] => "SELECT COUNT(*) FROM " +:+ m_table (v_model v)
                           | fl => "SELECT COUNT(*) FROM " +:+ m_table (v_model v)
                                   +:+ " WHERE " +:+ String.concat " AND " fl
                           end) (v_params v) with
          | Some ((_ :: _) as row) =>
              match assoc_lookup "COUNT(*)" row with
              | Some x => inr x
              | None => inl (KeyErrorOf "COUNT(*)")
              end
          | _ => inr (VInt 0)
          end), σ).
Proof.
  unfold qview. destruct (s_queries σ !! r) as [q|] eqn:Hq; [|done].
  destruct (s_strs σ !! q_filters q) as [fl|] eqn:Hf; [|done].
  destruct (s_vals σ !! q_filter_params q) as [pl|] eqn:Hp; [|done].
  intros [= <-].
  unfold count, mbind, M_bind, mret, M_ret, read_query, read_strs, read_vals.
  cbv beta. rewrite Hq. cbv beta iota zeta. rewrite Hp. cbv beta iota.
  rewrite Hf. cbv beta iota. cbn [v_model v_filters v_params].
  destruct fl; [reflexivity|]. by rewrite !string_app_assoc.
Qed.

Lemma row_to_model_view σ r v row :
  qview σ r = Some v ->
  row_to_model r row σ = (model_init (v_model v) (row_to_kwargs (v_model v) row), σ).
Proof.
  intros Hv. destruct (qview_query σ r v Hv) as (q & Hq & Emc).
  unfold row_to_model. rewrite (bind_ok _ _ _ _ _ (read_query_ok _ _ _ Hq)). cbv beta.
  by rewrite Emc.
Qed.

Lemma rows_to_models_view σ r v rows :
  qview σ r = Some v -> rows_to_models r rows σ = (hydrate_all (v_model v) rows, σ).
Proof.
  intros Hv. induction rows as [|row rows IH]; [reflexivity|].
  cbn [rows_to_models hydrate_all].
  pose proof (row_to_model_view σ r v row Hv) as Hrm.
  destruct (model_init (v_model v) (row_to_kwargs (v_model v) row)) as [e|i] eqn:Ei.
  - by rewrite (bind_err _ _ _ _ _ Hrm).
  - rewrite (bind_ok _ _ _ _ _ Hrm). cbv beta.
    destruct (hydrate_all (v_model v) rows) as [e|is].
    + by rewrite (bind_err _ _ _ _ _ IH).
    + by rewrite (bind_ok _ _ _ _ _ IH).
Qed.

Lemma hydrate_all_length m rows is : hydrate_all m rows = inr is -> length is = length rows.
Proof.
  revert is. induction rows as [|row rows IH]; intros is; cbn.
  - by intros [= <-].
  - destruct (model_init m _); [discriminate|].
    destruct (hydrate_all m rows) as [|is'] eqn:E; [discriminate|].
    intros [= <-]. cbn. f_equal. by apply IH.
Qed.

Lemma first_grows fetch_one σ r v :
  live σ r -> qview σ r = Some v -> v_order v <> Some "" ->
  heap_grows σ (snd (first fetch_one r σ)).
Proof.
  intros Hl Hv Ho.
  destruct (qview_query σ r v Hv) as (q & Hq & Emc).
  destruct (clone_view σ r v Hl Hv) as (σ1 & Hc & Hn1 & Hag1 & Hq1 & Hf1 & Hp1 & Hr).
  set (n := s_next σ) in *.
  pose proof (modify_query_ok σ1 _ _ (set_limit (Some 1)) Hq1) as Hm.
  set (σ2 := mkStore _ _ _ _) in Hm.
  assert (Hv2 : qview σ2 (S (S n)) =
                Some (mkView (v_model v) (v_filters v) (v_params v) (v_order v)
                             (Some 1) (v_offset v))).
  { apply (view_intro _ _ (set_limit (Some 1)
             (mkQuery (v_model v) (S (S (S n))) (S (S (S (S n))))
                      (v_order v) (v_limit v) (v_offset v)))); cbn; heap_simpl;
      rewrite ?Hf1, ?Hp1, ?Hn1; first [reflexivity | lia]. }
  pose proof (build_sql_view σ2 _ _ Hv2 Ho) as Hb.
  assert (Hg : heap_grows σ σ2).
  { split; [intros l Hl0; cbn; heap_simpl; apply (Hag1 l Hl0)|]. cbn. rewrite Hn1. lia. }
  unfold first. rewrite (bind_ok _ _ _ _ _ Hc). cbv beta.
  rewrite (bind_ok _ _ _ _ _ Hm). cbv beta.
  rewrite (bind_ok _ _ _ _ _ Hb). cbv beta iota. cbn [v_params].
  destruct (fetch_one _ (v_params v)) as [[|[k x] row]|]; try exact Hg.
  assert (Hrd : read_query r σ2 = (inr q, σ2)).
  { apply read_query_ok. cbn. heap_simpl. rewrite (proj1 (Hag1 r Hr)). exact Hq. }
  assert (Hrm : row_to_model r ((k, x) :: row) σ2 =
    (model_init (v_model v) (row_to_kwargs (v_model v) ((k, x) :: row)), σ2)).
  { unfold row_to_model. rewrite (bind_ok _ _ _ _ _ Hrd). cbv beta.
    by rewrite Emc. }
  destruct (model_init _ _) as [e|i].
  - by rewrite (bind_err _ _ _ _ _ Hrm).
  - by rewrite (bind_ok _ _ _ _ _ Hrm).
Qed.

Lemma string_prefix_app (p s : string) : String.prefix p (p +:+ s) = true.
Proof.
  induction p as [|a p IH]; [by destruct s|].
  change (String.prefix (String a p) (String a (p +:+ s)) = true).
  cbn. destruct (Ascii.ascii_dec a a); [exact IH|done].
Qed.

Lemma string_length_app (p s : string) :
  String.length (p +:+ s) = (String.length p + String.length s)%nat.
Proof.
  induction p as [|a p IH]; [reflexivity|].
  change (S (String.length (p +:+ s)) = S (String.length p + String.length s))%nat. by rewrite IH.
Qed.

Lemma substring_full (s : string) : String.substring 0 (String.length s) s = s.
Proof. induction s as [|a s IH]; [reflexivity|]. cbn. by rewrite IH. Qed.

Lemma substring_app (p s : string) :
  String.substring (String.length p) (String.length s) (p +:+ s) = s.
Proof.
  induction p as [|a p IH]; [apply substring_full|].
  change (String.substring (String.length p) (String.length s) (p +:+ s) = s). exact IH.
Qed.

Lemma query_getattr_filter_by r f :
  query_getattr r ("filter_by_" +:+ f) = inr (dynamic_filter r f).
Proof.
  unfold query_getattr. rewrite string_prefix_app. f_equal. f_equal.
  rewrite string_length_app.
  replace (String.length "filter_by_" + String.length f - 10)%nat with (String.length f)
    by (cbn; lia).
  exact (substring_app "filter_by_" f).
Qed.

(** X10: [count] sends the row-count statement on the model's table,
    with [WHERE] and the filters joined by [AND] when there are filters,
    and the filter parameters; it returns the count column of the row,
    [0] when no (or an empty) row comes back, and raises [KeyError] when
    the row has no count column; the heap is unchanged.  Order, limit and
    offset play no part: [count] after [order_by], [limit] or [offset]
    returns what it returns on the original query. *)
Theorem X10_count_ignores_order_limit_offset
    (fetch_one : string -> list Value -> option Row) (σ : Store) (r : loc) (v : QueryView) :
  live σ r -> qview σ r = Some v ->
  count fetch_one r σ =
    (inr (match fetch_one (match v_filters v with
                           | [] => "SELECT COUNT(*) FROM " +:+ m_table (v_model v)
                           | fl => "SELECT COUNT(*) FROM " +:+ m_table (v_model v)
                                   +:+ " WHERE " +:+ String.concat " AND " fl
                           end) (v_params v) with
          | Some ((_ :: _) as row) =>
              match assoc_lookup "COUNT(*)" row with
              | Some x => inr x
              | None => inl (KeyErrorOf "COUNT(*)")
              end
          | _ => inr (VInt 0)
          end), σ) /\
  (forall c r' σ', match c with CallFilter _ | CallFilterBy _ => False | _ => True end ->
     run_call c r σ = (inr r', σ') -> fst (count fetch_one r' σ') = fst (count fetch_one r σ)).
Proof.
  intros Hl Hv. split; [exact (count_view fetch_one σ r v Hv)|].
  intros c r' σ' Hc Hrun.
  destruct (run_call_spec σ r v c Hl Hv) as [_ Hpost].
  unfold builder_post in Hpost. rewrite Hrun in Hpost.
  destruct Hpost as (_ & _ & Hres).
  rewrite (count_view fetch_one σ r v Hv).
  destruct c as [conds | kw | fname asc | k | k]; try contradiction; cbn [call_view] in Hres.
  - destruct (assoc_lookup fname (m_fields (v_model v))) as [f|].
    + destruct Hres as (r1 & [= <-] & _ & _ & Hv1).
      rewrite (count_view fetch_one σ' r' _ Hv1). reflexivity.
    + destruct Hres as (e & Hres). discriminate.
  - destruct Hres as (r1 & [= <-] & _ & _ & Hv1).
    rewrite (count_view fetch_one σ' r' _ Hv1). reflexivity.
  - destruct Hres as (r1 & [= <-] & _ & _ & Hv1).
    rewrite (count_view fetch_one σ' r' _ Hv1). reflexivity.
Qed.

(** X11: [all] sends the statement [_build_sql] compiles with the filter
    parameters, and builds one instance per returned row, in order,
    through [Model.__init__]; the first row that fails validation makes
    [all] raise.  The heap is unchanged. *)
Theorem X11_all_hydrates_rows (fetch_all : string -> list Value -> list Row)
    (σ : Store) (r : loc) (v : QueryView) :
  qview σ r = Some v -> v_order v <> Some "" ->
  all fetch_all r σ = (hydrate_all (v_model v) (fetch_all (compiled_select v) (v_params v)), σ) /\
  (forall is, fst (all fetch_all r σ) = inr is ->
     length is = length (fetch_all (compiled_select v) (v_params v))).
Proof.
  intros Hv Ho.
  assert (Hall : all fetch_all r σ =
                 (hydrate_all (v_model v) (fetch_all (compiled_select v) (v_params v)), σ)).
  { unfold all. rewrite (bind_ok _ _ _ _ _ (build_sql_view σ r v Hv Ho)). cbv beta iota.
    exact (rows_to_models_view σ r v _ Hv). }
  split; [exact Hall|]. rewrite Hall. cbn [fst]. apply hydrate_all_length.
Qed.

(** X12: [first] ignores the query's own limit: it sends the query's
    statement with [LIMIT 1] in place of any limit (and no [LIMIT -1]
    before an offset), and it does not change the query it is called on. *)
Theorem X12_first_forces_limit_one (fetch_one : string -> list Value -> option Row)
    (σ : Store) (r : loc) (v : QueryView) :
  live σ r -> qview σ r = Some v -> v_order v <> Some "" ->
  fst (first fetch_one r σ) =
    match fetch_one (String.concat " " ([select_clause (v_model v)] ++ where_clauses (v_filters v)
                                        ++ order_clauses (v_order v) ++ ["LIMIT 1"]
                                        ++ offset_clauses (v_offset v))) (v_params v) with
    | Some ((_ :: _) as row) =>
        match model_init (v_model v) (row_to_kwargs (v_model v) row) with
        | inl e => inl e
        | inr i => inr (Some i)
        end
    | _ => inr None
    end /\
  qview (snd (first fetch_one r σ)) r = Some v /\ live (snd (first fetch_one r σ)) r.
Proof.
  intros Hl Hv Ho. split.
  - rewrite (first_view fetch_one σ r v Hl Hv Ho). reflexivity.
  - exact (heap_grows_view _ _ r v Hl Hv (first_grows fetch_one σ r v Hl Hv Ho)).
Qed.

(** X13: the dynamic method [filter_by_<f>] of a query is
    [filter_by(f = kwargs[f])]: it uses only the keyword [f], ignoring
    any other, raises [Missing required parameter f] when [f] is not
    given, and (as [filter_by]) appends [<column> = ?] with that value
    or raises when [f] is not a field.  A name not starting with
    [filter_by_] raises [AttributeError]. *)
Theorem X13_dynamic_filter_by (σ : Store) (r : loc) (v : QueryView) (f : string)
    (kw : list (string * Value)) :
  live σ r -> qview σ r = Some v ->
  query_getattr r ("filter_by_" +:+ f) = inr (dynamic_filter r f) /\
  (assoc_lookup f kw = None -> dynamic_filter r f kw = inl (MissingParameter f)) /\
  (forall x, assoc_lookup f kw = Some x ->
     dynamic_filter r f kw = inr (filter_by r [(f, x)]) /\
     builder_post σ r v (filter_by r [(f, x)])
       (match assoc_lookup f (m_fields (v_model v)) with
        | Some fld => Some (mkView (v_model v) (v_filters v ++ [name fld +:+ " = ?"])
                                   (v_params v ++ [x]) (v_order v) (v_limit v) (v_offset v))
        | None => None
        end)) /\
  (forall attr, String.prefix "filter_by_" attr = false ->
     query_getattr r attr = inl (NoAttribute "Query" attr)).
Proof.
  intros Hl Hv. split; [apply query_getattr_filter_by|]. split.
  { intros Hn. unfold dynamic_filter. by rewrite Hn. }
  split.
  - intros x Hx. split; [unfold dynamic_filter; by rewrite Hx|].
    pose proof (filter_by_post σ r v [(f, x)] Hl Hv) as H.
    cbn [resolve_filters] in H. destruct (assoc_lookup f (m_fields (v_model v))); exact H.
  - intros attr Ha. unfold query_getattr. by rewrite Ha.
Qed.

(** X14: a chain of builder calls on a live query gives the view folded
    call by call: filters and parameters accumulate in call order, and a
    later [order_by], [limit] or [offset] replaces an earlier one; the
    chain raises as soon as one call raises.  The query the chain starts
    from is unchanged either way. *)
Theorem X14_builder_chain (cs : list BuilderCall) (σ : Store) (r : loc) (v : QueryView) :
  live σ r -> qview σ r = Some v ->
  qview (snd (run_chain cs r σ)) r = Some v /\ live (snd (run_chain cs r σ)) r /\
  match chain_view cs v with
  | Some v' => exists r', fst (run_chain cs r σ) = inr r' /\
                 live (snd (run_chain cs r σ)) r' /\ qview (snd (run_chain cs r σ)) r' = Some v'
  | None => exists e, fst (run_chain cs r σ) = inl e
  end.
Proof.
  intros Hl Hv. destruct (run_chain_spec cs σ r v Hl Hv) as [Hg Hres].
  destruct (heap_grows_view _ _ r v Hl Hv Hg) as [H1 H2]. auto.
Qed.

(** ** Terminal operations and chains at concrete inputs *)

Ltac select_live := vm_compute; repeat split; [lia..|eexists; reflexivity].

(** X10 at [TestModel.select(db)], with a database answering 3. *)
Lemma X10_count_ignores_order_limit_offset_witness :
  live (snd (select TestModel empty_store)) 2 /\
  qview (snd (select TestModel empty_store)) 2 = Some (mkView TestModel [] [] None None None) /\
  count (fun _ _ => Some [("COUNT(*)", VInt 3)]) 2 (snd (select TestModel empty_store)) =
    (inr (inr (VInt 3)), snd (select TestModel empty_store)).
Proof.
  assert (H1 : live (snd (select TestModel empty_store)) 2) by select_live.
  assert (H2 : qview (snd (select TestModel empty_store)) 2 =
               Some (mkView TestModel [] [] None None None)) by reflexivity.
  split; [exact H1|]. split; [exact H2|].
  rewrite (proj1 (X10_count_ignores_order_limit_offset (fun _ _ => Some [("COUNT(*)", VInt 3)])
                    _ _ _ H1 H2)).
  reflexivity.
Defined.

(** X11 at [TestModel.select(db)], with a database returning two rows. *)
Lemma X11_all_hydrates_rows_witness :
  qview (snd (select TestModel empty_store)) 2 = Some (mkView TestModel [] [] None None None) /\
  None <> Some "" /\
  all (fun _ _ => [[("id", VInt 1); ("name", VStr "a")]; [("id", VInt 2); ("name", VStr "b")]])
      2 (snd (select TestModel empty_store)) =
    (hydrate_all TestModel [[("id", VInt 1); ("name", VStr "a")]; [("id", VInt 2); ("name", VStr "b")]],
     snd (select TestModel empty_store)).
Proof.
  assert (H2 : qview (snd (select TestModel empty_store)) 2 =
               Some (mkView TestModel [] [] None None None)) by reflexivity.
  assert (Ho : (None : option string) <> Some "") by discriminate.
  split; [exact H2|]. split; [exact Ho|].
  exact (proj1 (X11_all_hydrates_rows
           (fun _ _ => [[("id", VInt 1); ("name", VStr "a")]; [("id", VInt 2); ("name", VStr "b")]])
           _ _ _ H2 Ho)).
Defined.

(** X12 at [TestModel.select(db).limit(5)] (the query at address 5): [first] leaves its limit. *)
Lemma X12_first_forces_limit_one_witness :
  live (snd ((select TestModel ≫= fun q => limit q 5) empty_store)) 5 /\
  qview (snd ((select TestModel ≫= fun q => limit q 5) empty_store)) 5 =
    Some (mkView TestModel [] [] None (Some 5) None) /\
  qview (snd (first (fun _ _ => None) 5 (snd ((select TestModel ≫= fun q => limit q 5) empty_store)))) 5 =
    Some (mkView TestModel [] [] None (Some 5) None).
Proof.
  assert (H1 : live (snd ((select TestModel ≫= fun q => limit q 5) empty_store)) 5) by select_live.
  assert (H2 : qview (snd ((select TestModel ≫= fun q => limit q 5) empty_store)) 5 =
               Some (mkView TestModel [] [] None (Some 5) None)) by reflexivity.
  assert (Ho : (None : option string) <> Some "") by discriminate.
  split; [exact H1|]. split; [exact H2|].
  exact (proj1 (proj2 (X12_first_forces_limit_one (fun _ _ => None) _ _ _ H1 H2 Ho))).
Defined.

(** X13 at [TestModel.select(db).filter_by_name(name="x", other=1)]. *)
Lemma X13_dynamic_filter_by_witness :
  live (snd (select TestModel empty_store)) 2 /\
  qview (snd (select TestModel empty_store)) 2 = Some (mkView TestModel [] [] None None None) /\
  query_getattr 2 "filter_by_name" = inr (dynamic_filter 2 "name") /\
  dynamic_filter 2 "name" [("name", VStr "x"); ("other", VInt 1)] =
    inr (filter_by 2 [("name", VStr "x")]).
Proof.
  assert (H1 : live (snd (select TestModel empty_store)) 2) by select_live.
  assert (H2 : qview (snd (select TestModel empty_store)) 2 =
               Some (mkView TestModel [] [] None None None)) by reflexivity.
  pose proof (X13_dynamic_filter_by _ _ _ "name" [("name", VStr "x"); ("other", VInt 1)] H1 H2)
    as (Hg & _ & Hx & _).
  split; [exact H1|]. split; [exact H2|]. split; [exact Hg|].
  exact (proj1 (Hx (VStr "x") eq_refl)).
Defined.

(** X14 at [select(db).filter_by(name="x").order_by("price", False).limit(2).offset(1)]. *)
Lemma X14_builder_chain_witness :
  live (snd (select TestModel empty_store)) 2 /\
  qview (snd (select TestModel empty_store)) 2 = Some (mkView TestModel [] [] None None None) /\
  exists r', fst (run_chain [CallFilterBy [("name", VStr "x")]; CallOrderBy "price" false;
                             CallLimit 2; CallOffset 1] 2 (snd (select TestModel empty_store))) = inr r' /\
    qview (snd (run_chain [CallFilterBy [("name", VStr "x")]; CallOrderBy "price" false;
                           CallLimit 2; CallOffset 1] 2 (snd (select TestModel empty_store)))) r' =
      Some (mkView TestModel ["name = ?"] [VStr "x"] (Some "price DESC") (Some 2) (Some 1)).
Proof.
  assert (H1 : live (snd (select TestModel empty_store)) 2) by select_live.
  assert (H2 : qview (snd (select TestModel empty_store)) 2 =
               Some (mkView TestModel [] [] None None None)) by reflexivity.
  split; [exact H1|]. split; [exact H2|].
  pose proof (X14_builder_chain [CallFilterBy [("name", VStr "x")]; CallOrderBy "price" false;
                                 CallLimit 2; CallOffset 1] _ _ _ H1 H2) as (_ & _ & H).
  assert (Hc : chain_view [CallFilterBy [("name", VStr "x")]; CallOrderBy "price" false;
                           CallLimit 2; CallOffset 1] (mkView TestModel [] [] None None None) =
               Some (mkView TestModel ["name = ?"] [VStr "x"] (Some "price DESC") (Some 2) (Some 1)))
    by reflexivity.
  rewrite Hc in H. destruct H as (r' & Hr & _ & Hv). exists r'. split; [exact Hr|exact Hv].
Defined.

(** ** Schema statements and the database connection *)

Lemma collect_fields_decl attrs : forall fs pk,
  NoDup (map fst attrs) -> (forall a, a ∈ map fst attrs -> a ∉ map fst fs) ->
  (collect_fields attrs fs pk).1 = fs ++ decl_fields attrs.
Proof.
  induction attrs as [|[a [fd|]] attrs IH]; intros fs pk Hnd Hfr; cbn [collect_fields decl_fields].
  - by rewrite app_nil_r.
  - cbn in Hnd. apply NoDup_cons in Hnd as [Hnin Hnd].
    rewrite dict_set_fresh by (apply Hfr; left).
    rewrite IH; [by rewrite <- app_assoc|done|].
    intros a' Ha'. rewrite map_app. cbn. intros Hin.
    apply elem_of_app in Hin as [Hin|Hin].
    + apply (Hfr a'); [by right|done].
    + apply list_elem_of_singleton in Hin as ->. done.
  - cbn in Hnd. apply NoDup_cons in Hnd as [Hnin Hnd].
    apply IH; [done|]. intros a' Ha'. apply Hfr. by right.
Qed.

Lemma m_fields_decl c :
  NoDup (map fst (cls_dict c)) -> m_fields (model_fields c) = decl_fields (cls_dict c).
Proof.
  intros Hnd. rewrite m_fields_model_fields, collect_fields_decl; [done|done|].
  intros a _ Hin. by apply not_elem_of_nil in Hin.
Qed.

Lemma pk_fields_decl attrs p :
  In p (pk_fields attrs) -> In p (map snd (decl_fields attrs)).
Proof.
  induction attrs as [|[a [fd|]] attrs IH]; cbn; [done| |auto].
  destruct (fd_primary_key fd); cbn; [|auto]. intros [<-|Hin]; auto.
Qed.

Lemma column_sql_pk py_str f :
  primary_key f = true ->
  column_sql py_str f =
    name f +:+ " " +:+ db_type (kind f) +:+ " PRIMARY KEY"
    +:+ (if negb (nullable f) then " NOT NULL" else "")
    +:+ (match default_value f with
         | VNone => ""
         | VStr s => " DEFAULT '" +:+ s +:+ "'"
         | d => " DEFAULT " +:+ py_str d
         end).
Proof.
  intros Hpk. unfold column_sql. rewrite Hpk.
  assert (Hnil : forall s, s +:+ "" = s).
  { induction s as [|x s IH]; [reflexivity|]. change (String x (s +:+ "") = String x s). by rewrite IH. }
  destruct (negb (nullable f)), (default_value f); rewrite ?Hnil, ?string_app_assoc; reflexivity.
Qed.


(** X16: [close] closes the cursor, then the connection, each only if
    set, and resets both; closing again does nothing.  After [close],
    [execute], [fetch_one], [fetch_all], [commit], [rollback] and
    [get_cursor] raise [Database connection not established] without
    touching sqlite3, until [connect] is called again. *)
Theorem X16_close_then_use (engine : string -> list Value -> list Row) (db : Database)
    (sql : string) (params : option (list Value)) :
  let '(r, db1, ev) := db_close db in
  r = inr tt /\ db1 = mkDatabase (db_url db) false false /\
  ev = (if db_cursor db then [EvCursorClose] else []) ++
       (if db_connection db then [EvConnectionClose] else []) /\
  db_close db1 = (inr tt, db1, []) /\
  db_execute engine sql params db1 = (inl (RuntimeError not_established), db1, []) /\
  db_fetch_one engine sql params db1 = (inl (RuntimeError not_established), db1, []) /\
  db_fetch_all engine sql params db1 = (inl (RuntimeError not_established), db1, []) /\
  db_commit db1 = (inl (RuntimeError not_established), db1, []) /\
  db_rollback db1 = (inl (RuntimeError not_established), db1, []) /\
  db_get_cursor db1 = (inl (RuntimeError not_established), db1, []) /\
  (db_connect ≫= fun _ => db_execute engine sql params) db1 =
    (inr (engine sql (params_or_empty params)), mkDatabase (db_url db) true true,
     [EvConnect (db_url db); EvExecute sql (params_or_empty params)]).
Proof.
  destruct db as [u [] []]; cbn; repeat split.
Qed.

(** X17: [with Database(url) as db: body] connects, runs the body, and
    then, if the connection is still open, commits when the body returned
    and rolls back when it raised (the body's exception propagates), and
    closes the cursor and the connection.  If the body closed the
    connection itself, [__exit__] raises [AttributeError], which replaces
    the body's result or exception. *)
Theorem X17_with_database {A} (url : string) (body : DbM A) :
  let '(r, db, ev) := with_database url body in
  match body (mkDatabase url true true) with
  | (inr x, db2, ev2) =>
      if db_connection db2
      then r = inr x /\ db = mkDatabase (db_url db2) false false /\
           ev = [EvConnect url] ++ ev2 ++ [EvCommit] ++
                (if db_cursor db2 then [EvCursorClose] else []) ++ [EvConnectionClose]
      else r = inl (AttributeError "'NoneType' object has no attribute 'commit'") /\
           db = db2 /\ ev = [EvConnect url] ++ ev2
  | (inl e, db2, ev2) =>
      if db_connection db2
      then r = inl e /\ db = mkDatabase (db_url db2) false false /\
           ev = [EvConnect url] ++ ev2 ++ [EvRollback] ++
                (if db_cursor db2 then [EvCursorClose] else []) ++ [EvConnectionClose]
      else r = inl (AttributeError "'NoneType' object has no attribute 'rollback'") /\
           db = db2 /\ ev = [EvConnect url] ++ ev2
  end.
Proof.
  unfold with_database, db_enter, db_connect, database_new. cbn [db_url].
  destruct (body (mkDatabase url true true)) as [[[e|x] [u [] []]] ev2]; cbn;
    repeat split; by rewrite ?app_nil_r.
Qed.

